(** * sodium.driver: the device facade over an adb shell

    A shallow embedding of [src/sodium/driver.py].  The [Driver] class reads
    device attributes by running shell commands through its adb collaborator
    and scraping the text that comes back with [re.search], [int], [in] and
    [or].  The embedding has three layers:

    - [Py]: the Python builtins the driver relies on ([str] truthiness,
      [in], [int(str)], and the fragment of [re] its five patterns use);
    - [Eff]: a state-and-exception monad over the collaborator's state, with
      a log of every collaborator call;
    - [Driver]: the accessors, written call for call as in the source. *)

From Stdlib Require Import Strings.String Strings.Ascii Lists.List ZArith Bool Lia.
From Stdlib Require Import Numbers.DecimalString Numbers.DecimalNat.
Import ListNotations.
Local Open Scope string_scope.

(** ** Python builtins *)

Module Py.

(** Text is a sequence of code points below 256, one [ascii] per code
    point. *)

(** [bool(s)] for a [str]: the empty string is the only falsy one. *)
Definition truthy (s : string) : bool :=
  match s with
  | EmptyString => false
  | String _ _ => true
  end.

(** The text after the literal [l] at the head of [s], if [s] starts with
    [l]. *)
Fixpoint strip_prefix (l s : string) : option string :=
  match l with
  | EmptyString => Some s
  | String a l' =>
      match s with
      | String b s' => if Ascii.eqb a b then strip_prefix l' s' else None
      | EmptyString => None
      end
  end.

(** [s.startswith(l)]. *)
Definition startswith (s l : string) : bool :=
  match strip_prefix l s with
  | Some _ => true
  | None => false
  end.

(** [needle in hay] for two [str] values. *)
Fixpoint contains (needle hay : string) : bool :=
  if startswith hay needle then true
  else match hay with
       | EmptyString => false
       | String _ hay' => contains needle hay'
       end.

(** *** [int(str)]

    CPython turns the text into an ASCII buffer (a non-ASCII white-space
    code point becomes a blank), then reads: white space, an optional sign,
    decimal digits with single underscores between them, white space, end of
    text.  Anything else is a [ValueError], here [None].  [parse_int] is
    that reading; [int] adds the interpreter's cap on the number of
    digits. *)

Definition is_space (a : ascii) : bool :=
  let n := nat_of_ascii a in
  (((9 <=? n) && (n <=? 13)) || (n =? 32) || (n =? 133) || (n =? 160))%nat.

Definition digit_val (a : ascii) : option Z :=
  let n := nat_of_ascii a in
  if ((48 <=? n) && (n <=? 57))%nat then Some (Z.of_nat (n - 48)) else None.

Fixpoint skip_spaces (s : string) : string :=
  match s with
  | String a s' => if is_space a then skip_spaces s' else s
  | EmptyString => s
  end.

(** The digits after the first one: [acc] is the value read so far. *)
Fixpoint more_digits (acc : Z) (s : string) : option (Z * string) :=
  match s with
  | String a s' =>
      match digit_val a with
      | Some d => more_digits (10 * acc + d) s'
      | None =>
          if Ascii.eqb a "_" then
            match s' with
            | String b s'' =>
                match digit_val b with
                | Some d => more_digits (10 * acc + d) s''
                | None => None
                end
            | EmptyString => None
            end
          else Some (acc, s)
      end
  | EmptyString => Some (acc, s)
  end.

Definition digits (s : string) : option (Z * string) :=
  match s with
  | String a s' =>
      match digit_val a with
      | Some d => more_digits d s'
      | None => None
      end
  | EmptyString => None
  end.

Definition signed (s : string) : Z * string :=
  match s with
  | String a s' =>
      if Ascii.eqb a "+" then (1%Z, s')
      else if Ascii.eqb a "-" then ((-1)%Z, s')
      else (1%Z, s)
  | EmptyString => (1%Z, s)
  end.

Definition parse_int (s : string) : option Z :=
  let (sign, s1) := signed (skip_spaces s) in
  match digits s1 with
  | Some (n, rest) =>
      match skip_spaces rest with
      | EmptyString => Some (sign * n)%Z
      | String _ _ => None
      end
  | None => None
  end.

(** The number of decimal digits in [s]: what the interpreter counts
    against its cap. *)
Fixpoint count_digits (s : string) : nat :=
  match s with
  | EmptyString => 0
  | String a s' =>
      match digit_val a with
      | Some _ => S (count_digits s')
      | None => count_digits s'
      end
  end.

(** [sys.int_info.str_digits_check_threshold]: a text with no more digits
    than this is never checked against the cap. *)
Definition str_digits_check_threshold : nat := 640.

(** [sys.int_info.default_max_str_digits]. *)
Definition default_max_str_digits : nat := 4300.

(** The text has more digits than the cap [max_str_digits] allows; a cap of
    0 allows any number (as do the interpreters that have no cap). *)
Definition over_cap (max_str_digits : nat) (s : string) : bool :=
  ((str_digits_check_threshold <? count_digits s)
   && ((0 <? max_str_digits) && (max_str_digits <? count_digits s)))%nat.

(** [int(s)] under [sys.get_int_max_str_digits() = max_str_digits]. *)
Definition int (max_str_digits : nat) (s : string) : option Z :=
  match parse_int s with
  | Some n => if over_cap max_str_digits s then None else Some n
  | None => None
  end.

(** *** The [re] fragment

    The driver's patterns use literal text, [.], a range class [[0-9]],
    capture groups, alternation, and [+] / [+?] applied to a single-character
    item.  [regex] is the abstract syntax of that fragment; [compile] reads
    it from the pattern text. *)

Inductive cset : Type :=
| AnyButNewline
| Range (lo hi : ascii).

Definition cset_mem (c : cset) (a : ascii) : bool :=
  match c with
  | AnyButNewline => negb (Ascii.eqb a "010")
  | Range lo hi =>
      ((nat_of_ascii lo <=? nat_of_ascii a) && (nat_of_ascii a <=? nat_of_ascii hi))%nat
  end.

Inductive regex : Type :=
| Eps
| Lit (s : string)
| Cls (c : cset)
| Cat (r1 r2 : regex)
| Alt (r1 r2 : regex)
| Grp (i : nat) (r : regex)
| Plus (c : cset)
| PlusLazy (c : cset).

(** A match object: the whole matched text and the text of each group. *)
Record Match : Type := mkMatch {
  whole : string;
  groups : list (nat * string)
}.

Fixpoint lookup (i : nat) (gs : list (nat * string)) : option string :=
  match gs with
  | [] => None
  | (j, s) :: gs' => if Nat.eqb i j then Some s else lookup i gs'
  end.

(** [m.group(i)]; [None] stands for the [IndexError] of a group the pattern
    does not have. *)
Definition group (m : Match) (i : nat) : option string :=
  match i with
  | O => Some (whole m)
  | _ => lookup i (groups m)
  end.

Section Matcher.

Variable R : Type.

(** A continuation receives the text just matched, the text that remains
    and the groups set so far. *)
Definition cont : Type := string -> string -> list (nat * string) -> option R.

Definition orelse (a b : option R) : option R :=
  match a with
  | Some x => Some x
  | None => b
  end.

(** Zero or more characters of [c], longest first; [acc] is the text
    already taken by the enclosing [+]. *)
Fixpoint star_greedy (c : cset) (acc s : string) (k : string -> string -> option R)
  : option R :=
  match s with
  | String a s' =>
      if cset_mem c a
      then orelse (star_greedy c (acc ++ String a "") s' k) (k acc s)
      else k acc s
  | EmptyString => k acc s
  end.

(** Zero or more characters of [c], shortest first. *)
Fixpoint star_lazy (c : cset) (acc s : string) (k : string -> string -> option R)
  : option R :=
  orelse (k acc s)
    match s with
    | String a s' =>
        if cset_mem c a then star_lazy c (acc ++ String a "") s' k else None
    | EmptyString => None
    end.

(** Backtracking match of [r] at the head of [s]: alternatives are tried
    left to right and the first overall success wins. *)
Fixpoint match_here (r : regex) (s : string) (gs : list (nat * string)) (k : cont)
  : option R :=
  match r with
  | Eps => k "" s gs
  | Lit l =>
      match strip_prefix l s with
      | Some s' => k l s' gs
      | None => None
      end
  | Cls c =>
      match s with
      | String a s' => if cset_mem c a then k (String a "") s' gs else None
      | EmptyString => None
      end
  | Cat r1 r2 =>
      match_here r1 s gs (fun t1 s1 g1 =>
        match_here r2 s1 g1 (fun t2 s2 g2 => k (t1 ++ t2) s2 g2))
  | Alt r1 r2 => orelse (match_here r1 s gs k) (match_here r2 s gs k)
  | Grp i r => match_here r s gs (fun t s' g' => k t s' ((i, t) :: g'))
  | Plus c =>
      match s with
      | String a s' =>
          if cset_mem c a
          then star_greedy c (String a "") s' (fun t s'' => k t s'' gs)
          else None
      | EmptyString => None
      end
  | PlusLazy c =>
      match s with
      | String a s' =>
          if cset_mem c a
          then star_lazy c (String a "") s' (fun t s'' => k t s'' gs)
          else None
      | EmptyString => None
      end
  end.

End Matcher.

Arguments orelse {R}.
Arguments star_greedy {R}.
Arguments star_lazy {R}.
Arguments match_here {R}.

Definition match_at (r : regex) (s : string) : option Match :=
  match_here r s [] (fun t _ gs => Some (mkMatch t gs)).

(** [re.search(r, s)]: the match at the leftmost position that has one, or
    [None]. *)
Fixpoint search (r : regex) (s : string) : option Match :=
  orelse (match_at r s)
    match s with
    | String _ s' => search r s'
    | EmptyString => None
    end.

(** *** Reading a pattern

    [parse_alt], [parse_seq] and [parse_item] read the pattern text by
    recursive descent; [n] is the number the next opening parenthesis gets.
    A construct outside the fragment gives [None]. *)

Definition special (a : ascii) : bool :=
  contains (String a "") "\*?{}^$[]()|+.".

Definition quantified (a : ascii) : bool :=
  contains (String a "") "*?{+".

(** The item [c] followed by its quantifier, if any. *)
Definition quant (c : cset) (s : string) : option (regex * string) :=
  match s with
  | String "+" (String "?" s') => Some (PlusLazy c, s')
  | String "+" (String "+" _) => None
  | String "+" s' => Some (Plus c, s')
  | String a _ => if quantified a then None else Some (Cls c, s)
  | EmptyString => Some (Cls c, s)
  end.

(** Concatenation that keeps runs of literal text together. *)
Definition cat (r1 r2 : regex) : regex :=
  match r1, r2 with
  | _, Eps => r1
  | Lit a, Lit b => Lit (a ++ b)
  | Lit a, Cat (Lit b) r => Cat (Lit (a ++ b)) r
  | _, _ => Cat r1 r2
  end.

Fixpoint parse_alt (fuel : nat) (s : string) (n : nat) {struct fuel}
  : option (regex * string * nat) :=
  match fuel with
  | O => None
  | S f =>
      match parse_seq f s n with
      | Some (r1, String "|" s1, n1) =>
          match parse_alt f s1 n1 with
          | Some (r2, s2, n2) => Some (Alt r1 r2, s2, n2)
          | None => None
          end
      | other => other
      end
  end
with parse_seq (fuel : nat) (s : string) (n : nat) {struct fuel}
  : option (regex * string * nat) :=
  match fuel with
  | O => None
  | S f =>
      match s with
      | EmptyString | String ")" _ | String "|" _ => Some (Eps, s, n)
      | _ =>
          match parse_item f s n with
          | Some (r1, s1, n1) =>
              match parse_seq f s1 n1 with
              | Some (r2, s2, n2) => Some (cat r1 r2, s2, n2)
              | None => None
              end
          | None => None
          end
      end
  end
with parse_item (fuel : nat) (s : string) (n : nat) {struct fuel}
  : option (regex * string * nat) :=
  match fuel with
  | O => None
  | S f =>
      match s with
      | String "(" s' =>
          match parse_alt f s' (S n) with
          | Some (r, String ")" s1, n1) =>
              match s1 with
              | String a _ => if quantified a then None else Some (Grp n r, s1, n1)
              | EmptyString => Some (Grp n r, s1, n1)
              end
          | _ => None
          end
      | String "[" (String lo (String "-" (String hi (String "]" s')))) =>
          if special lo || special hi then None
          else match quant (Range lo hi) s' with
               | Some (r, s1) => Some (r, s1, n)
               | None => None
               end
      | String "." s' =>
          match quant AnyButNewline s' with
          | Some (r, s1) => Some (r, s1, n)
          | None => None
          end
      | String a s' =>
          if special a then None
          else match quant (Range a a) s' with
               | Some (Cls _, s1) => Some (Lit (String a ""), s1, n)
               | Some (r, s1) => Some (r, s1, n)
               | None => None
               end
      | EmptyString => None
      end
  end.

(** [re.compile(p)], [None] when [p] is not in the fragment. *)
Definition compile (p : string) : option regex :=
  match parse_alt (3 * String.length p + 3) p 1 with
  | Some (r, EmptyString, _) => Some r
  | _ => None
  end.

End Py.

(** ** Effects: the collaborator, exceptions and the call log *)

(** The exceptions an accessor can end with.  [CommandFailure] stands for
    whatever the adb collaborator raises (transport error, timeout, a
    surfaced exit status); [ReError] for a pattern [re] rejects. *)
Inductive exn : Type :=
| AttributeError
| ValueError
| IndexError
| ReError
| CommandFailure (msg : string).

Inductive Result (A : Type) : Type :=
| Return (a : A)
| Raise (e : exn).

Arguments Return {A} a.
Arguments Raise {A} e.

(** One entry of the log per call made on the adb collaborator. *)
Inductive Call : Type :=
| Shell (cmdargs : string)
| IsScreenOn
| Rotation
| RawWindowSize
| GetWindowSize.

(** The methods of the [adbutils] device the driver calls.  [S] is the state
    of the remote device and session, [WindowSize] the collaborator's record
    and [Timeout] the type of the optional time limit; a method returns its
    outcome and the state it leaves. *)
Record AdbDevice (S WindowSize Timeout : Type) : Type := mkAdb {
  adb_shell : string -> option Timeout -> S -> Result string * S;
  adb_is_screen_on : S -> Result bool * S;
  adb_rotation : S -> Result Z * S;
  adb_raw_window_size : S -> Result WindowSize * S;
  adb_window_size : S -> Result WindowSize * S
}.

Arguments adb_shell {S WindowSize Timeout}.
Arguments adb_is_screen_on {S WindowSize Timeout}.
Arguments adb_rotation {S WindowSize Timeout}.
Arguments adb_raw_window_size {S WindowSize Timeout}.
Arguments adb_window_size {S WindowSize Timeout}.

Module Eff.

Section Monad.

Variable S : Type.

(** The world an accessor runs in: the collaborator's state and the calls
    made so far, oldest first. *)
Record World : Type := mkWorld {
  device : S;
  calls : list Call
}.

Definition M (A : Type) : Type := World -> Result A * World.

Definition ret {A} (a : A) : M A := fun w => (Return a, w).

Definition raise {A} (e : exn) : M A := fun w => (Raise e, w).

Definition bind {A B} (m : M A) (f : A -> M B) : M B :=
  fun w =>
    match m w with
    | (Return a, w') => f a w'
    | (Raise e, w') => (Raise e, w')
    end.

(** A call on the collaborator: logged, then run on the device state. *)
Definition call {A} (c : Call) (method : S -> Result A * S) : M A :=
  fun w =>
    let (r, s') := method (device w) in
    (r, mkWorld s' (calls w ++ [c])).

End Monad.

Arguments mkWorld {S}.
Arguments device {S}.
Arguments calls {S}.
Arguments ret {S A}.
Arguments raise {S A}.
Arguments bind {S A B}.
Arguments call {S A}.

End Eff.

Notation "x <- m ;; k" := (Eff.bind m (fun x => k))
  (at level 61, m at next level, right associativity).

(** ** The driver *)

Module Driver.

(** Characters that cannot be written inside a string literal here. *)
Definition dq : string := String "034" "".
Definition nl : string := String "010" "".

(** The shell commands, as the accessors spell them. *)
Definition cmd_bluetooth_on := "settings get global bluetooth_on".
Definition cmd_wifi : string :=
  Eval cbv in "dumpsys wifi | grep " ++ dq ++ "Wi-Fi is" ++ dq.
Definition cmd_airplane := "cmd connectivity airplane-mode".
Definition cmd_ime_shown := "dumpsys input_method | grep mInputShown".
Definition cmd_romtype := "getprop persist.sys.romtype".
Definition cmd_manufacturer := "getprop ro.product.manufacturer".
Definition cmd_orientation := "dumpsys input | grep SurfaceOrientation".
Definition cmd_sys_locale := "getprop persist.sys.locale".
Definition cmd_product_locale := "getprop ro.product.locale".
Definition cmd_release := "getprop ro.build.version.release".
Definition cmd_fota := "getprop ro.fota.version".
Definition cmd_sys_device := "getprop persist.sys.device".
Definition cmd_product_model := "getprop ro.product.model".
Definition cmd_default_ime := "settings get secure default_input_method".
Definition cmd_screen_timeout := "dumpsys power | grep  mScreenOffTimeoutSetting".
Definition cmd_audio_music : string :=
  Eval cbv in "dumpsys audio | grep -A 5 " ++ dq ++ "STREAM_MUSIC" ++ dq.
Definition cmd_audio_ring : string :=
  Eval cbv in "dumpsys audio | grep -E " ++ dq
              ++ "AUDIO_STREAM_RING|STREAM_NOTIFICATION" ++ dq ++ " -A 5".
Definition cmd_music_speaker := "settings list system | grep volume_music_speaker".
Definition cmd_ring_speaker := "settings list system | grep volume_ring_speaker".
Definition cmd_notification_speaker :=
  "settings list system | grep volume_notification_speaker".
Definition cmd_netstats : string :=
  Eval cbv in "dumpsys netstats | grep -E " ++ dq ++ "iface=wlan" ++ dq.
Definition cmd_bluetooth_manager := "dumpsys bluetooth_manager".
Definition cmd_brightness := "settings get system screen_brightness".

(** The patterns, as the accessors spell them. *)
Definition pat_ime_shown := "mInputShown=(true|false)".
Definition pat_screen_timeout := "mScreenOffTimeoutSetting=([0-9]+)".
Definition pat_max : string := Eval cbv in "Max: ([0-9]+)" ++ nl.
Definition pat_speaker := "speaker=([0-9]+)".
Definition pat_ssid : string :=
  Eval cbv in "(networkId|wifiNetworkKey)=" ++ dq ++ "(.+?)" ++ dq.
Definition pat_bluetooth_name : string := Eval cbv in "name: (.+)" ++ nl.

Section WithDevice.

Context {S WindowSize Timeout : Type}.
Variable adb : AdbDevice S WindowSize Timeout.

(** The interpreter's [sys.get_int_max_str_digits()]. *)
Variable max_str_digits : nat.

Local Abbreviation M := (Eff.M S).

(** *** Python operations inside the monad *)

(** [a or b] on [str] operands: [b] is evaluated only when [a] is
    falsy. *)
Definition py_or (a b : M string) : M string :=
  x <- a ;;
  if Py.truthy x then Eff.ret x else b.

Definition py_int (s : string) : M Z :=
  match Py.int max_str_digits s with
  | Some n => Eff.ret n
  | None => Eff.raise ValueError
  end.

Definition re_compile (pattern : string) : M Py.regex :=
  match Py.compile pattern with
  | Some r => Eff.ret r
  | None => Eff.raise ReError
  end.

(** [re.search] given an already compiled pattern. *)
Definition re_search_compiled (r : Py.regex) (text : string) : M (option Py.Match) :=
  Eff.ret (Py.search r text).

(** [re.search] given the pattern text. *)
Definition re_search (pattern text : string) : M (option Py.Match) :=
  r <- re_compile pattern ;;
  re_search_compiled r text.

(** [m.group(i)] where [m] is what [re.search] returned: on [None] the
    attribute lookup fails. *)
Definition py_group (m : option Py.Match) (i : nat) : M string :=
  match m with
  | None => Eff.raise AttributeError
  | Some mo =>
      match Py.group mo i with
      | Some s => Eff.ret s
      | None => Eff.raise IndexError
      end
  end.

(** *** The methods of [Driver] *)

Definition shell (cmdargs : string) (timeout : option Timeout) : M string :=
  Eff.call (Shell cmdargs) (adb_shell adb cmdargs timeout).

Definition bluetooth_on : M bool :=
  out <- shell cmd_bluetooth_on None ;;
  status <- py_int out ;;
  Eff.ret (status =? 1)%Z.

Definition wifi_on : M bool :=
  out <- shell cmd_wifi None ;;
  Eff.ret (Py.contains "enabled" out).

Definition airplane_mode_on : M bool :=
  out <- shell cmd_airplane None ;;
  Eff.ret (Py.contains "enable" out).

Definition is_ime_active : M bool :=
  out <- shell cmd_ime_shown None ;;
  m <- re_search pat_ime_shown out ;;
  value <- py_group m 1 ;;
  Eff.ret (String.eqb value "true").

Definition is_screen_on : M bool :=
  Eff.call IsScreenOn (adb_is_screen_on adb).

Definition get_brand : M string :=
  py_or (shell cmd_romtype None) (shell cmd_manufacturer None).

Definition get_orientation : M string :=
  shell cmd_orientation None.

Definition get_locale : M string :=
  py_or (shell cmd_sys_locale None) (shell cmd_product_locale None).

Definition get_system_version : M Z :=
  value <- shell cmd_release None ;;
  py_int value.

Definition get_build_number : M string :=
  shell cmd_fota None.

Definition get_device_model : M string :=
  py_or (shell cmd_sys_device None) (shell cmd_product_model None).

Definition get_current_ime : M string :=
  shell cmd_default_ime None.

Definition get_window_size : M WindowSize :=
  r <- Eff.call Rotation (adb_rotation adb) ;;
  if (r =? 0)%Z
  then Eff.call RawWindowSize (adb_raw_window_size adb)
  else Eff.call GetWindowSize (adb_window_size adb).

Definition get_screen_timeout : M Z :=
  out <- shell cmd_screen_timeout None ;;
  m <- re_search pat_screen_timeout out ;;
  value <- py_group m 1 ;;
  py_int value.

Definition get_max_volume_level : M Z :=
  out <- shell cmd_audio_music None ;;
  m <- re_search pat_max out ;;
  g <- py_group m 1 ;;
  py_int g.

Definition get_max_notification_level : M Z :=
  out <- shell cmd_audio_ring None ;;
  m <- re_search pat_max out ;;
  g <- py_group m 1 ;;
  py_int g.

Definition get_volume_music_speaker : M Z :=
  out <- shell cmd_music_speaker None ;;
  m <- re_search pat_speaker out ;;
  g <- py_group m 1 ;;
  py_int g.

Definition get_volume_notification_speaker : M Z :=
  out <- py_or (shell cmd_ring_speaker None) (shell cmd_notification_speaker None) ;;
  m <- re_search pat_speaker out ;;
  g <- py_group m 1 ;;
  py_int g.

(** [None] is the bare [return] of the source. *)
Definition get_current_ssid : M (option string) :=
  r <- re_compile pat_ssid ;;
  out <- shell cmd_netstats None ;;
  m <- re_search_compiled r out ;;
  match m with
  | None => Eff.ret None
  | Some _ =>
      g <- py_group m 2 ;;
      Eff.ret (Some g)
  end.

Definition get_bluetooth_name : M string :=
  r <- re_compile pat_bluetooth_name ;;
  out <- shell cmd_bluetooth_manager None ;;
  m <- re_search_compiled r out ;;
  py_group m 1.

Definition get_screen_brightness : M Z :=
  out <- shell cmd_brightness None ;;
  py_int out.

End WithDevice.

End Driver.

(** ** Tables of accessors

    The accessors grouped by the shape of their body, each with the
    commands and pattern its body names. *)

Module Tables.

Import Driver.

Section WithDevice.

Context {S WindowSize Timeout : Type}.
Variable adb : AdbDevice S WindowSize Timeout.
Variable max_str_digits : nat.

(** What an accessor ends with, its value left out: [None] for a normal
    return, the exception otherwise. *)
Definition failure {A} (m : Eff.M S A) : Eff.World S -> option exn * Eff.World S :=
  fun w =>
    let (r, w') := m w in
    (match r with
     | Return _ => None
     | Raise e => Some e
     end, w').

(** The accessors of the form [shell(first) or shell(second)]. *)
Definition two_strategy : list (string * string * Eff.M S string) :=
  [ (cmd_romtype, cmd_manufacturer, get_brand adb);
    (cmd_sys_locale, cmd_product_locale, get_locale adb);
    (cmd_sys_device, cmd_product_model, get_device_model adb) ].

(** Accessors that apply [.group(1)] to a [re.search] over one command's
    output. *)
Definition pattern_applying
  : list (string * string * (Eff.World S -> option exn * Eff.World S)) :=
  [ (cmd_ime_shown, pat_ime_shown, failure (is_ime_active adb));
    (cmd_screen_timeout, pat_screen_timeout,
     failure (get_screen_timeout adb max_str_digits));
    (cmd_bluetooth_manager, pat_bluetooth_name, failure (get_bluetooth_name adb));
    (cmd_audio_music, pat_max, failure (get_max_volume_level adb max_str_digits)) ].

End WithDevice.

(** The leftmost match of [pattern] in [text], if any. *)
Definition found (pattern text : string) : option Py.Match :=
  match Py.compile pattern with
  | Some r => Py.search r text
  | None => None
  end.

(** Group [i] of the leftmost match of [pattern] in [text], if any. *)
Definition extract (pattern : string) (i : nat) (text : string) : option string :=
  match found pattern text with
  | Some m => Py.group m i
  | None => None
  end.

(** The driver's patterns in abstract syntax. *)
Definition digit : Py.cset := Py.Range "0" "9".

(** Every character of [s] is in the class [c]. *)
Fixpoint all_in (c : Py.cset) (s : string) : bool :=
  match s with
  | EmptyString => true
  | String a s' => Py.cset_mem c a && all_in c s'
  end.

(** The two keys the SSID pattern starts with, up to the opening quote. *)
Definition key_network_id : string := Eval cbv in "networkId=" ++ dq.
Definition key_wifi_network : string := Eval cbv in "wifiNetworkKey=" ++ dq.

Definition re_ime_shown : Py.regex :=
  Py.Cat (Py.Lit "mInputShown=") (Py.Grp 1 (Py.Alt (Py.Lit "true") (Py.Lit "false"))).

Definition re_screen_timeout : Py.regex :=
  Py.Cat (Py.Lit "mScreenOffTimeoutSetting=") (Py.Grp 1 (Py.Plus digit)).

Definition re_max : Py.regex :=
  Py.Cat (Py.Lit "Max: ") (Py.Cat (Py.Grp 1 (Py.Plus digit)) (Py.Lit nl)).

Definition re_speaker : Py.regex :=
  Py.Cat (Py.Lit "speaker=") (Py.Grp 1 (Py.Plus digit)).

Definition re_ssid : Py.regex :=
  Py.Cat (Py.Grp 1 (Py.Alt (Py.Lit "networkId") (Py.Lit "wifiNetworkKey")))
    (Py.Cat (Py.Lit ("=" ++ dq))
       (Py.Cat (Py.Grp 2 (Py.PlusLazy Py.AnyButNewline)) (Py.Lit dq))).

Definition re_bluetooth_name : Py.regex :=
  Py.Cat (Py.Lit "name: ") (Py.Cat (Py.Grp 1 (Py.Plus Py.AnyButNewline)) (Py.Lit nl)).

Section IntAccessors.

Context {S WindowSize Timeout : Type}.
Variable adb : AdbDevice S WindowSize Timeout.
Variable max_str_digits : nat.

(** Accessors that pass text to [int]: the command, the text [int] receives
    as a function of the command's output, and the accessor. *)
Definition integer_valued : list (string * (string -> option string) * Eff.M S Z) :=
  [ (cmd_release, fun out => Some out, get_system_version adb max_str_digits);
    (cmd_screen_timeout, extract pat_screen_timeout 1,
     get_screen_timeout adb max_str_digits);
    (cmd_audio_music, extract pat_max 1, get_max_volume_level adb max_str_digits) ].

End IntAccessors.

End Tables.

(** ** Devices used as concrete inputs *)

Module Fixtures.

(** A device without state of its own that answers each command from a
    table; a command the table lacks prints nothing. *)
Fixpoint answer (table : list (string * Result string)) (cmd : string) : Result string :=
  match table with
  | [] => Return ""
  | (c, r) :: table' => if String.eqb c cmd then r else answer table' cmd
  end.

Definition scripted (table : list (string * Result string)) (rotation : Z)
  : AdbDevice unit (Z * Z) unit :=
  {| adb_shell := fun cmd _ s => (answer table cmd, s);
     adb_is_screen_on := fun s => (Return true, s);
     adb_rotation := fun s => (Return rotation, s);
     adb_raw_window_size := fun s => (Return (1080, 2400)%Z, s);
     adb_window_size := fun s => (Return (2400, 1080)%Z, s) |}.

Definition start : Eff.World unit := Eff.mkWorld tt [].

(** [n] times the digit 1. *)
Fixpoint ones (n : nat) : string :=
  match n with
  | O => EmptyString
  | S n' => String "1" (ones n')
  end.

(** Outputs whose number has one digit more than a cap of 640 digits, the
    lowest the interpreter lets one set, allows. *)
Definition long_timeout : string := "mScreenOffTimeoutSetting=" ++ ones 641.
Definition long_max : string := "Max: " ++ ones 641 ++ Driver.nl.

(** Outputs used as concrete inputs. *)
Definition two_max_lines : string :=
  Eval cbv in "Max: 7" ++ Driver.nl ++ "Max: 15" ++ Driver.nl.

Definition max_15 : string := Eval cbv in "Max: 15" ++ Driver.nl.

Definition stream_music : string :=
  Eval cbv in "- STREAM_MUSIC:" ++ Driver.nl ++ "   Muted: false" ++ Driver.nl
              ++ "   Min: 0" ++ Driver.nl ++ "   Max: 15" ++ Driver.nl
              ++ "   streamVolume:8" ++ Driver.nl.

Definition ssid_abc123 : string :=
  Eval cbv in "networkId=" ++ Driver.dq ++ "abc123" ++ Driver.dq.

Definition two_networks : string :=
  Eval cbv in "networkId=" ++ Driver.dq ++ "home" ++ Driver.dq ++ ", networkId="
              ++ Driver.dq ++ "abc123" ++ Driver.dq.

Definition ident_line : string :=
  Eval cbv in "ident=[{type=WIFI, networkId=" ++ Driver.dq ++ "abc123" ++ Driver.dq
              ++ ", metered=false}]".

End Fixtures.

(** ** Further tables and vocabulary *)

Module MoreTables.

Import Driver Tables.

Section WithDevice.

Context {S WindowSize Timeout : Type}.
Variable adb : AdbDevice S WindowSize Timeout.
Variable max_str_digits : nat.

(** Accessors of the form [int(re.search(key ([0-9]+) stop, shell(cmd)).group(1))]:
    the command, the literal before the digit group, the literal after it
    and the accessor. *)
Definition digit_scraping : list (string * string * string * Eff.M S Z) :=
  [ (cmd_screen_timeout, "mScreenOffTimeoutSetting=", "",
     get_screen_timeout adb max_str_digits);
    (cmd_audio_music, "Max: ", nl, get_max_volume_level adb max_str_digits);
    (cmd_audio_ring, "Max: ", nl, get_max_notification_level adb max_str_digits);
    (cmd_music_speaker, "speaker=", "", get_volume_music_speaker adb max_str_digits) ].

(** Accessors of the form [needle in shell(cmd)]. *)
Definition substring_tests : list (string * string * Eff.M S bool) :=
  [ (cmd_wifi, "enabled", wifi_on adb);
    (cmd_airplane, "enable", airplane_mode_on adb) ].

(** Accessors of the form [int(shell(cmd))]. *)
Definition int_of_output : list (string * Eff.M S Z) :=
  [ (cmd_release, get_system_version adb max_str_digits);
    (cmd_brightness, get_screen_brightness adb max_str_digits) ].

(** Every accessor that runs a shell command, with the first command it
    runs. *)
Definition shell_first : list (string * (Eff.World S -> option exn * Eff.World S)) :=
  [ (cmd_bluetooth_on, failure (bluetooth_on adb max_str_digits));
    (cmd_wifi, failure (wifi_on adb));
    (cmd_airplane, failure (airplane_mode_on adb));
    (cmd_ime_shown, failure (is_ime_active adb));
    (cmd_romtype, failure (get_brand adb));
    (cmd_orientation, failure (get_orientation adb));
    (cmd_sys_locale, failure (get_locale adb));
    (cmd_release, failure (get_system_version adb max_str_digits));
    (cmd_fota, failure (get_build_number adb));
    (cmd_sys_device, failure (get_device_model adb));
    (cmd_default_ime, failure (get_current_ime adb));
    (cmd_screen_timeout, failure (get_screen_timeout adb max_str_digits));
    (cmd_audio_music, failure (get_max_volume_level adb max_str_digits));
    (cmd_audio_ring, failure (get_max_notification_level adb max_str_digits));
    (cmd_music_speaker, failure (get_volume_music_speaker adb max_str_digits));
    (cmd_ring_speaker, failure (get_volume_notification_speaker adb max_str_digits));
    (cmd_netstats, failure (get_current_ssid adb));
    (cmd_bluetooth_manager, failure (get_bluetooth_name adb));
    (cmd_brightness, failure (get_screen_brightness adb max_str_digits)) ].

End WithDevice.

(** [str(n)] for a natural number: its decimal numeral. *)
Definition str_of_nat (n : nat) : string :=
  NilZero.string_of_uint (Nat.to_uint n).

(** [str(z)] for an integer. *)
Definition str_of_int (z : Z) : string :=
  if (z <? 0)%Z then "-" ++ str_of_nat (Z.abs_nat z) else str_of_nat (Z.abs_nat z).

(** The text [s] does not begin with a decimal digit. *)
Definition no_digit_ahead (s : string) : Prop :=
  match s with
  | EmptyString => True
  | String a _ => Py.cset_mem digit a = false
  end.

(** The largest number of digits [int] reads under every setting of the
    interpreter's digit cap. *)
Definition digit_cap_floor : nat := Py.str_digits_check_threshold.

(** The two literals [is_ime_active] can match. *)
Definition shown_true := "mInputShown=true".
Definition shown_false := "mInputShown=false".

End MoreTables.

(** ** The builtins on sample inputs

    The values of [int], [in] and [re.search] below are those CPython gives
    for the same inputs; [int] alone stands for [int] under the default
    digit cap. *)

Module Samples.

Import Driver.

Local Abbreviation int := (Py.int Py.default_max_str_digits).

Example int_plain : int "15" = Some 15%Z.
Proof. reflexivity. Qed.

Example int_leading_zeros : int "007" = Some 7%Z.
Proof. reflexivity. Qed.

Example int_blanks_around : int (" 15" ++ nl) = Some 15%Z.
Proof. reflexivity. Qed.

Example int_no_break_space : int (String "160" "1") = Some 1%Z.
Proof. reflexivity. Qed.

Example int_file_separator : int (String "028" "1") = None.
Proof. reflexivity. Qed.

Example int_signs : int "-1" = Some (-1)%Z /\ int "+1" = Some 1%Z /\ int "+ 1" = None.
Proof. repeat split. Qed.

Example int_underscores :
  int "1_0" = Some 10%Z /\ int "_1" = None /\ int "1_" = None
  /\ int "1__0" = None.
Proof. repeat split. Qed.

Example int_rejects :
  int "" = None /\ int "null" = None /\ int "1.0" = None
  /\ int "0x10" = None /\ int (String "1" (String "000" "")) = None.
Proof. repeat split. Qed.

Example contains_enable : Py.contains "enable" "disabled" = false
                          /\ Py.contains "enable" "enabled" = true.
Proof. split; reflexivity. Qed.

Example search_leftmost :
  Tables.extract pat_bluetooth_name 1 ("name: a" ++ nl ++ "name: b" ++ nl) = Some "a".
Proof. reflexivity. Qed.

Example search_dot_stops_at_newline :
  Tables.extract pat_bluetooth_name 1 ("  name: Pixel 7" ++ nl ++ "  address: 00" ++ nl)
  = Some "Pixel 7".
Proof. reflexivity. Qed.

Example search_lazy_takes_a_quote :
  Tables.extract pat_ssid 2 (Tables.key_network_id ++ dq ++ " " ++ Fixtures.ssid_abc123)
  = Some (dq ++ " networkId=").
Proof. reflexivity. Qed.

Example search_empty_value : Tables.found pat_ssid (Tables.key_network_id ++ dq) = None.
Proof. reflexivity. Qed.

Example search_second_key :
  Tables.extract pat_ssid 2 (Tables.key_wifi_network ++ "x" ++ dq ++ " "
                             ++ Fixtures.ssid_abc123)
  = Some "x".
Proof. reflexivity. Qed.

Example search_ime :
  Tables.extract pat_ime_shown 1 "  mShowRequested=true mInputShown=false" = Some "false".
Proof. reflexivity. Qed.

(** A pattern [re] rejects, and one it accepts that the fragment lacks. *)
Example compile_none : Py.compile "(a" = None /\ Py.compile "a*" = None.
Proof. split; reflexivity. Qed.

(** The cap counts digits only, and a cap of 0 lifts it. *)
Example int_at_the_cap :
  Py.int 640 (Fixtures.ones 640) <> None
  /\ Py.int 640 (Fixtures.ones 641) = None
  /\ Py.int 640 (" -" ++ Fixtures.ones 640 ++ nl) <> None
  /\ Py.int 4300 (Fixtures.ones 641) <> None
  /\ Py.int 0 (Fixtures.ones 641) <> None.
Proof. vm_compute. repeat split; discriminate. Qed.

End Samples.

(** ** Properties of the fallback accessors *)

Module Fallback.

Import Driver Tables.

(** One call of [shell], given what the collaborator does. *)
Lemma shell_run {S WS T} (adb : AdbDevice S WS T) cmd (w : Eff.World S) r s' :
  adb_shell adb cmd None (Eff.device w) = (r, s') ->
  shell adb cmd None w = (r, Eff.mkWorld s' (Eff.calls w ++ [Shell cmd])).
Proof.
  intros H. unfold shell, Eff.call. rewrite H. reflexivity.
Qed.

(** [a or b] when [a] returns falsy text: the result is that of [b], run in
    the world [a] leaves. *)
Lemma py_or_falls_through {S} (a b : Eff.M S string) w w1 :
  a w = (Return "", w1) -> py_or a b w = b w1.
Proof.
  intros H. unfold py_or, Eff.bind. rewrite H. reflexivity.
Qed.

(** [a or b] when [a] returns truthy text: [b] is not run. *)
Lemma py_or_short_circuit {S} (a b : Eff.M S string) w w1 v :
  a w = (Return v, w1) -> v <> "" -> py_or a b w = (Return v, w1).
Proof.
  intros H Hv. unfold py_or, Eff.bind. rewrite H.
  destruct v as [|c v']; [congruence | reflexivity].
Qed.

(** [a or b] when [a] raises: the exception leaves the expression. *)
Lemma py_or_raises {S} (a b : Eff.M S string) w w1 e :
  a w = (Raise e, w1) -> py_or a b w = (Raise e, w1).
Proof.
  intros H. unfold py_or, Eff.bind. rewrite H. reflexivity.
Qed.

(** Every accessor of the table is [py_or] over its two commands. *)
Lemma two_strategy_shape {S WS T} (adb : AdbDevice S WS T) c1 c2 acc :
  In (c1, c2, acc) (two_strategy adb) ->
  acc = py_or (shell adb c1 None) (shell adb c2 None) /\ c1 <> c2.
Proof.
  unfold two_strategy. simpl.
  intros [H | [H | [H | []]]]; inversion H; subst; split;
    solve [reflexivity | discriminate].
Qed.

(** C1.  For [get_brand], [get_locale] and [get_device_model]: when the
    first command prints nothing and the second prints [v], a non-empty
    text, the accessor returns [v]; the calls it adds to the log are the
    first command once and then the second command once, and the two
    commands differ. *)
Theorem fallback_on_empty {S WS T} (adb : AdbDevice S WS T)
    c1 c2 acc (w : Eff.World S) v s1 s2 :
  In (c1, c2, acc) (two_strategy adb) ->
  adb_shell adb c1 None (Eff.device w) = (Return "", s1) ->
  adb_shell adb c2 None s1 = (Return v, s2) ->
  v <> "" ->
  acc w = (Return v, Eff.mkWorld s2 (Eff.calls w ++ [Shell c1; Shell c2]))
  /\ c1 <> c2.
Proof.
  intros Hin H1 H2 _.
  destruct (two_strategy_shape adb c1 c2 acc Hin) as [-> Hne].
  split; [|exact Hne].
  rewrite (py_or_falls_through _ _ w _ (shell_run adb c1 w _ _ H1)).
  rewrite (shell_run adb c2 (Eff.mkWorld s1 (Eff.calls w ++ [Shell c1])) (Return v) s2 H2).
  simpl. rewrite <- app_assoc. reflexivity.
Qed.

(** [get_brand] on a device whose vendor property is unset. *)
Lemma fallback_on_empty_witness :
  Driver.get_brand
    (Fixtures.scripted [(cmd_romtype, Return ""); (cmd_manufacturer, Return "Xiaomi")] 0)
    Fixtures.start
  = (Return "Xiaomi", Eff.mkWorld tt [Shell cmd_romtype; Shell cmd_manufacturer])
  /\ cmd_romtype <> cmd_manufacturer.
Proof.
  apply (fallback_on_empty
           (Fixtures.scripted
              [(cmd_romtype, Return ""); (cmd_manufacturer, Return "Xiaomi")] 0)
           cmd_romtype cmd_manufacturer _ Fixtures.start "Xiaomi" tt tt).
  - simpl. left. reflexivity.
  - reflexivity.
  - reflexivity.
  - discriminate.
Defined.

(** C2.  For [get_brand], [get_locale] and [get_device_model]: when the
    first command prints a non-empty text [v1], the accessor returns [v1],
    the only call it adds to the log is the first command, and the device is
    left in the state that command left it in.  Nothing is assumed of the
    second command. *)
Theorem first_success_short_circuit {S WS T} (adb : AdbDevice S WS T)
    c1 c2 acc (w : Eff.World S) v1 s1 :
  In (c1, c2, acc) (two_strategy adb) ->
  adb_shell adb c1 None (Eff.device w) = (Return v1, s1) ->
  v1 <> "" ->
  acc w = (Return v1, Eff.mkWorld s1 (Eff.calls w ++ [Shell c1])).
Proof.
  intros Hin H1 Hv.
  destruct (two_strategy_shape adb c1 c2 acc Hin) as [-> _].
  apply py_or_short_circuit; [|exact Hv].
  apply shell_run. exact H1.
Qed.

(** [get_device_model] on a device whose second command would fail. *)
Lemma first_success_short_circuit_witness :
  Driver.get_device_model
    (Fixtures.scripted
       [(cmd_sys_device, Return "M2102");
        (cmd_product_model, Raise (CommandFailure "closed"))] 0)
    Fixtures.start
  = (Return "M2102", Eff.mkWorld tt [Shell cmd_sys_device]).
Proof.
  apply (first_success_short_circuit
           (Fixtures.scripted
              [(cmd_sys_device, Return "M2102");
               (cmd_product_model, Raise (CommandFailure "closed"))] 0)
           cmd_sys_device cmd_product_model _ Fixtures.start "M2102" tt).
  - simpl. right. right. left. reflexivity.
  - reflexivity.
  - discriminate.
Defined.

(** A device on which the first command of [get_brand] times out while the
    second would print the manufacturer: the accessor ends with the time-out
    and never runs the second command. *)
Lemma command_failure_not_masked :
  let adb := Fixtures.scripted
               [(cmd_romtype, Raise (CommandFailure "timeout"));
                (cmd_manufacturer, Return "Xiaomi")] 0 in
  adb_shell adb cmd_romtype None tt = (Raise (CommandFailure "timeout"), tt)
  /\ adb_shell adb cmd_manufacturer None tt = (Return "Xiaomi", tt)
  /\ Driver.get_brand adb Fixtures.start
     = (Raise (CommandFailure "timeout"), Eff.mkWorld tt [Shell cmd_romtype])
  /\ fst (Driver.get_brand adb Fixtures.start) <> Return "Xiaomi".
Proof.
  repeat split; try reflexivity. simpl. discriminate.
Qed.

(** C4, as the code has it.  For [get_brand], [get_locale] and
    [get_device_model]: when the first command raises, the accessor ends
    with that same exception, and the only call it adds to the log is the
    first command; the second command is not run. *)
Theorem command_failure_propagates {S WS T} (adb : AdbDevice S WS T)
    c1 c2 acc (w : Eff.World S) e s1 :
  In (c1, c2, acc) (two_strategy adb) ->
  adb_shell adb c1 None (Eff.device w) = (Raise e, s1) ->
  acc w = (Raise e, Eff.mkWorld s1 (Eff.calls w ++ [Shell c1])).
Proof.
  intros Hin H1.
  destruct (two_strategy_shape adb c1 c2 acc Hin) as [-> _].
  apply py_or_raises. apply shell_run. exact H1.
Qed.

(** [get_locale] on a device whose first command times out. *)
Lemma command_failure_propagates_witness :
  Driver.get_locale
    (Fixtures.scripted
       [(cmd_sys_locale, Raise (CommandFailure "timeout"));
        (cmd_product_locale, Return "en-US")] 0)
    Fixtures.start
  = (Raise (CommandFailure "timeout"), Eff.mkWorld tt [Shell cmd_sys_locale]).
Proof.
  apply (command_failure_propagates
           (Fixtures.scripted
              [(cmd_sys_locale, Raise (CommandFailure "timeout"));
               (cmd_product_locale, Return "en-US")] 0)
           cmd_sys_locale cmd_product_locale _ Fixtures.start
           (CommandFailure "timeout") tt).
  - simpl. right. left. reflexivity.
  - reflexivity.
Defined.

End Fallback.

(** ** Properties of the coercions *)

Module Coercion.

Import Driver Tables.

(** [bluetooth_on] once the command has printed [out]: [int(out)] decides
    between a value and a [ValueError]. *)
Lemma bluetooth_on_run {S WS T} (adb : AdbDevice S WS T) lim (w : Eff.World S) out s' :
  adb_shell adb cmd_bluetooth_on None (Eff.device w) = (Return out, s') ->
  bluetooth_on adb lim w
  = (match Py.int lim out with
     | Some n => Return (n =? 1)%Z
     | None => Raise ValueError
     end, Eff.mkWorld s' (Eff.calls w ++ [Shell cmd_bluetooth_on])).
Proof.
  intros H. unfold bluetooth_on, Eff.bind.
  rewrite (Fallback.shell_run adb _ w _ _ H).
  unfold py_int. destruct (Py.int lim out); reflexivity.
Qed.

(** C6.  [bluetooth_on] returns [True] when the command prints ["1"] and
    [False] when it prints ["10"]. *)
Theorem bluetooth_on_exact_literal {S WS T} (adb : AdbDevice S WS T) lim
    (w : Eff.World S) out s' :
  adb_shell adb cmd_bluetooth_on None (Eff.device w) = (Return out, s') ->
  (out = "1" ->
   bluetooth_on adb lim w
   = (Return true, Eff.mkWorld s' (Eff.calls w ++ [Shell cmd_bluetooth_on])))
  /\ (out = "10" ->
      bluetooth_on adb lim w
      = (Return false, Eff.mkWorld s' (Eff.calls w ++ [Shell cmd_bluetooth_on]))).
Proof.
  intros H. rewrite (bluetooth_on_run adb lim w out s' H).
  split; intros ->; reflexivity.
Qed.

(** Both outputs of C6, each on a device that prints it. *)
Lemma bluetooth_on_exact_literal_witness :
  Driver.bluetooth_on (Fixtures.scripted [(cmd_bluetooth_on, Return "1")] 0) 4300
    Fixtures.start
  = (Return true, Eff.mkWorld tt [Shell cmd_bluetooth_on])
  /\ Driver.bluetooth_on (Fixtures.scripted [(cmd_bluetooth_on, Return "10")] 0) 4300
       Fixtures.start
     = (Return false, Eff.mkWorld tt [Shell cmd_bluetooth_on]).
Proof.
  split.
  - apply (bluetooth_on_exact_literal
             (Fixtures.scripted [(cmd_bluetooth_on, Return "1")] 0) 4300
             Fixtures.start "1" tt); reflexivity.
  - apply (bluetooth_on_exact_literal
             (Fixtures.scripted [(cmd_bluetooth_on, Return "10")] 0) 4300
             Fixtures.start "10" tt); reflexivity.
Defined.

(** C9.  [bluetooth_on] is not total over the command's output: whenever the
    output is not text [int] accepts, such as ["null"], the accessor ends
    with the [ValueError] of [int] and returns no boolean. *)
Theorem bluetooth_on_not_total {S WS T} (adb : AdbDevice S WS T) lim
    (w : Eff.World S) out s' :
  adb_shell adb cmd_bluetooth_on None (Eff.device w) = (Return out, s') ->
  Py.int lim out = None ->
  bluetooth_on adb lim w
  = (Raise ValueError, Eff.mkWorld s' (Eff.calls w ++ [Shell cmd_bluetooth_on])).
Proof.
  intros H Hint. rewrite (bluetooth_on_run adb lim w out s' H), Hint. reflexivity.
Qed.

(** The output ["null"] of an unset settings key. *)
Lemma bluetooth_on_not_total_witness :
  Driver.bluetooth_on (Fixtures.scripted [(cmd_bluetooth_on, Return "null")] 0) 4300
    Fixtures.start
  = (Raise ValueError, Eff.mkWorld tt [Shell cmd_bluetooth_on]).
Proof.
  apply (bluetooth_on_not_total
           (Fixtures.scripted [(cmd_bluetooth_on, Return "null")] 0) 4300
           Fixtures.start "null" tt); reflexivity.
Defined.

End Coercion.

(** ** The window size *)

Module Geometry.

Import Driver.

(** C10.  [get_window_size] asks the collaborator for the rotation, then
    returns what [_raw_window_size] returns when the rotation is 0 and what
    [window_size] returns otherwise; these two collaborator calls are all it
    adds to the log, so no shell command is run and no text is parsed. *)
Theorem get_window_size_by_rotation {S WS T} (adb : AdbDevice S WS T)
    (w : Eff.World S) r s1 :
  adb_rotation adb (Eff.device w) = (Return r, s1) ->
  get_window_size adb w
  = if (r =? 0)%Z
    then (fst (adb_raw_window_size adb s1),
          Eff.mkWorld (snd (adb_raw_window_size adb s1))
            (Eff.calls w ++ [Rotation; RawWindowSize]))
    else (fst (adb_window_size adb s1),
          Eff.mkWorld (snd (adb_window_size adb s1))
            (Eff.calls w ++ [Rotation; GetWindowSize])).
Proof.
  intros H. unfold get_window_size, Eff.bind, Eff.call. rewrite H.
  destruct (r =? 0)%Z; simpl.
  - destruct (adb_raw_window_size adb s1); simpl.
    rewrite <- app_assoc. reflexivity.
  - destruct (adb_window_size adb s1); simpl.
    rewrite <- app_assoc. reflexivity.
Qed.

(** An upright device and one turned by a quarter. *)
Lemma get_window_size_by_rotation_witness :
  Driver.get_window_size (Fixtures.scripted [] 0) Fixtures.start
  = (Return (1080, 2400)%Z, Eff.mkWorld tt [Rotation; RawWindowSize])
  /\ Driver.get_window_size (Fixtures.scripted [] 1) Fixtures.start
     = (Return (2400, 1080)%Z, Eff.mkWorld tt [Rotation; GetWindowSize]).
Proof.
  split.
  - apply (get_window_size_by_rotation (Fixtures.scripted [] 0) Fixtures.start 0%Z tt).
    reflexivity.
  - apply (get_window_size_by_rotation (Fixtures.scripted [] 1) Fixtures.start 1%Z tt).
    reflexivity.
Defined.

End Geometry.

(** ** Properties of the pattern matcher *)

Module Patterns.

Import Driver Tables.

Lemma compile_ime_shown : Py.compile pat_ime_shown = Some re_ime_shown.
Proof. reflexivity. Qed.

Lemma compile_screen_timeout : Py.compile pat_screen_timeout = Some re_screen_timeout.
Proof. reflexivity. Qed.

Lemma compile_max : Py.compile pat_max = Some re_max.
Proof. reflexivity. Qed.

Lemma compile_speaker : Py.compile pat_speaker = Some re_speaker.
Proof. reflexivity. Qed.

Lemma compile_ssid : Py.compile pat_ssid = Some re_ssid.
Proof. reflexivity. Qed.

Lemma compile_bluetooth_name : Py.compile pat_bluetooth_name = Some re_bluetooth_name.
Proof. reflexivity. Qed.

(** *** Literal prefixes *)

Lemma strip_prefix_Some l : forall s s',
  Py.strip_prefix l s = Some s' -> s = l ++ s'.
Proof.
  induction l as [|a l IH]; simpl; intros s s' H.
  - congruence.
  - destruct s as [|b s]; [discriminate|].
    destruct (Ascii.eqb a b) eqn:E; [|discriminate].
    apply Ascii.eqb_eq in E. subst b. f_equal. apply IH. exact H.
Qed.

Lemma strip_prefix_app l : forall s, Py.strip_prefix l (l ++ s) = Some s.
Proof.
  induction l as [|a l IH]; simpl; intros s.
  - reflexivity.
  - rewrite Ascii.eqb_refl. apply IH.
Qed.

Lemma startswith_app l s : Py.startswith (l ++ s) l = true.
Proof. unfold Py.startswith. rewrite strip_prefix_app. reflexivity. Qed.

Lemma startswith_false s l : Py.startswith s l = false -> Py.strip_prefix l s = None.
Proof.
  unfold Py.startswith. destruct (Py.strip_prefix l s); [discriminate | reflexivity].
Qed.

Lemma contains_startswith n s : Py.startswith s n = true -> Py.contains n s = true.
Proof.
  intros H. destruct s; cbn [Py.contains]; rewrite H; reflexivity.
Qed.

Lemma contains_cons n a s :
  Py.contains n (String a s) = false ->
  Py.startswith (String a s) n = false /\ Py.contains n s = false.
Proof.
  cbn [Py.contains]. destruct (Py.startswith (String a s) n); [discriminate | auto].
Qed.

Lemma contains_tail n a s : Py.contains n (String a s) = false -> Py.contains n s = false.
Proof. intros H. apply (contains_cons n a s H). Qed.

Lemma contains_head n s : Py.contains n s = false -> Py.startswith s n = false.
Proof.
  destruct s; cbn [Py.contains]; destruct (Py.startswith _ n); auto; discriminate.
Qed.

(** *** Where [search] looks *)

Lemma search_step r a s :
  Py.match_at r (String a s) = None -> Py.search r (String a s) = Py.search r s.
Proof. intros H. simpl. rewrite H. reflexivity. Qed.

Lemma search_here r s m : Py.match_at r s = Some m -> Py.search r s = Some m.
Proof. intros H. destruct s; simpl; rewrite H; reflexivity. Qed.

(** A stretch of text in which no match can start is skipped: [P] holds of
    the stretch, is kept by dropping its first character, and rules out a
    match at the head. *)
Lemma search_skips r rest (P : string -> Prop) :
  (forall a p, P (String a p) -> P p) ->
  (forall a p, P (String a p) -> Py.match_at r (String a p ++ rest) = None) ->
  forall pre, P pre -> Py.search r (pre ++ rest) = Py.search r rest.
Proof.
  intros Htail Hno. induction pre as [|a p IH]; intros HP.
  - reflexivity.
  - change (String a p ++ rest) with (String a (p ++ rest)).
    rewrite search_step; [apply IH; eapply Htail; exact HP|].
    apply (Hno a p HP).
Qed.

(** No match anywhere when no position can start one. *)
Lemma search_nowhere r (P : string -> Prop) :
  (forall a p, P (String a p) -> P p) ->
  (forall s, P s -> Py.match_at r s = None) ->
  forall s, P s -> Py.search r s = None.
Proof.
  intros Htail Hno. induction s as [|a p IH]; intros HP.
  - simpl. rewrite (Hno "" HP). reflexivity.
  - rewrite search_step; [apply IH; eapply Htail; exact HP | apply Hno; exact HP].
Qed.

(** *** What a match starts with *)

Lemma literal_head l r s m :
  Py.match_at (Py.Cat (Py.Lit l) r) s = Some m -> Py.startswith s l = true.
Proof.
  unfold Py.match_at, Py.startswith. cbn [Py.match_here].
  destruct (Py.strip_prefix l s); [reflexivity | discriminate].
Qed.

Lemma no_literal_no_match l r s :
  Py.startswith s l = false -> Py.match_at (Py.Cat (Py.Lit l) r) s = None.
Proof.
  intros H. destruct (Py.match_at _ s) eqn:E; [|reflexivity].
  apply literal_head in E. congruence.
Qed.

Lemma strip_prefix_split l1 l2 s :
  Py.strip_prefix (l1 ++ l2) s
  = match Py.strip_prefix l1 s with
    | Some s' => Py.strip_prefix l2 s'
    | None => None
    end.
Proof.
  revert s. induction l1 as [|a l1 IH]; intros s; simpl.
  - reflexivity.
  - destruct s as [|b s]; [reflexivity|].
    destruct (Ascii.eqb a b); [apply IH | reflexivity].
Qed.

(** A match of the SSID pattern starts with one of its two keys. *)
Lemma ssid_needs_key s :
  Py.startswith s key_network_id = false ->
  Py.startswith s key_wifi_network = false ->
  Py.match_at re_ssid s = None.
Proof.
  intros H1 H2. apply startswith_false in H1, H2.
  change key_network_id with ("networkId" ++ ("=" ++ dq)) in H1.
  change key_wifi_network with ("wifiNetworkKey" ++ ("=" ++ dq)) in H2.
  rewrite strip_prefix_split in H1, H2.
  unfold Py.match_at, re_ssid. cbn [Py.match_here]. unfold Py.orelse.
  destruct (Py.strip_prefix "networkId" s); [rewrite H1|];
    (destruct (Py.strip_prefix "wifiNetworkKey" s); [rewrite H2|]); reflexivity.
Qed.

(** Compares a literal with text that starts with an unknown stretch [p]:
    splits on each character of [p] until the literal is used up or two
    known characters differ. *)
Ltac walk E p :=
  cbn [Py.strip_prefix append] in E;
  lazymatch type of E with
  | context [Ascii.eqb ?x ?y] =>
      let Hq := fresh "Hq" in
      destruct (Ascii.eqb_spec x y) as [Hq|Hq];
      [ first [ discriminate Hq | subst y; walk E p | clear Hq; walk E p ]
      | discriminate E ]
  | context [match ?q ++ _ with _ => _ end] =>
      destruct q as [|? q]; walk E q
  | _ => idtac
  end.

(** The literal ["Max: "] cannot begin inside a stretch that does not
    contain it and end inside a following ["Max: "]. *)
Lemma max_no_straddle a p rest :
  Py.contains "Max: " (String a p) = false ->
  Py.startswith (String a p ++ "Max: " ++ rest) "Max: " = false.
Proof.
  intros H. destruct (Py.startswith _ _) eqn:E; [exfalso|reflexivity].
  apply contains_head in H. unfold Py.startswith in E.
  walk E p.
  pose proof (startswith_app "Max: " p) as H'. cbv [append] in H'. congruence.
Qed.

Lemma network_id_no_straddle a p rest :
  Py.contains key_network_id (String a p) = false ->
  Py.startswith (String a p ++ key_network_id ++ rest) key_network_id = false.
Proof.
  intros H. destruct (Py.startswith _ _) eqn:E; [exfalso|reflexivity].
  apply contains_head in H. unfold Py.startswith, key_network_id in E.
  walk E p.
  pose proof (startswith_app key_network_id p) as H'.
  unfold key_network_id in H, H'. cbv [append] in H'. congruence.
Qed.

Lemma wifi_network_no_straddle a p rest :
  Py.contains key_wifi_network (String a p) = false ->
  Py.startswith (String a p ++ key_network_id ++ rest) key_wifi_network = false.
Proof.
  intros H. destruct (Py.startswith _ _) eqn:E; [exfalso|reflexivity].
  apply contains_head in H. unfold Py.startswith, key_wifi_network, key_network_id in E.
  walk E p.
  pose proof (startswith_app key_wifi_network p) as H'.
  unfold key_wifi_network in H, H'. cbv [append] in H'. congruence.
Qed.

End Patterns.

(** ** Properties of the pattern-applying accessors *)

Module Extraction.

Import Driver Tables Patterns.

(** *** What each accessor does once its command has printed [out] *)

Lemma is_ime_active_run {S WS T} (adb : AdbDevice S WS T) (w : Eff.World S) out s' :
  adb_shell adb cmd_ime_shown None (Eff.device w) = (Return out, s') ->
  is_ime_active adb w
  = (match Py.search re_ime_shown out with
     | None => Raise AttributeError
     | Some m =>
         match Py.group m 1 with
         | Some value => Return (String.eqb value "true")
         | None => Raise IndexError
         end
     end, Eff.mkWorld s' (Eff.calls w ++ [Shell cmd_ime_shown])).
Proof.
  intros H. unfold is_ime_active, Eff.bind.
  rewrite (Fallback.shell_run adb _ w _ _ H).
  unfold re_search, re_compile. rewrite compile_ime_shown.
  cbv beta iota delta [Eff.bind Eff.ret Eff.raise re_search_compiled py_group py_int].
  destruct (Py.search re_ime_shown out) as [m|]; [|reflexivity].
  destruct (Py.group m 1); reflexivity.
Qed.

(** The shared shape [int(re.search(pattern, shell(cmd)).group(1))]. *)
Lemma scrape_int_run {S WS T} (adb : AdbDevice S WS T) lim cmd pat r
    (w : Eff.World S) out s' :
  Py.compile pat = Some r ->
  adb_shell adb cmd None (Eff.device w) = (Return out, s') ->
  (out <- shell adb cmd None ;;
   m <- re_search pat out ;;
   g <- py_group m 1 ;;
   py_int lim g) w
  = (match Py.search r out with
     | None => Raise AttributeError
     | Some m =>
         match Py.group m 1 with
         | Some g =>
             match Py.int lim g with
             | Some n => Return n
             | None => Raise ValueError
             end
         | None => Raise IndexError
         end
     end, Eff.mkWorld s' (Eff.calls w ++ [Shell cmd])).
Proof.
  intros Hc H. unfold Eff.bind.
  rewrite (Fallback.shell_run adb _ w _ _ H).
  unfold re_search, re_compile. rewrite Hc.
  cbv beta iota delta [Eff.bind Eff.ret Eff.raise re_search_compiled py_group py_int].
  destruct (Py.search r out) as [m|]; [|reflexivity].
  destruct (Py.group m 1) as [g|]; [|reflexivity].
  destruct (Py.int lim g); reflexivity.
Qed.

Lemma get_bluetooth_name_run {S WS T} (adb : AdbDevice S WS T) (w : Eff.World S) out s' :
  adb_shell adb cmd_bluetooth_manager None (Eff.device w) = (Return out, s') ->
  get_bluetooth_name adb w
  = (match Py.search re_bluetooth_name out with
     | None => Raise AttributeError
     | Some m =>
         match Py.group m 1 with
         | Some value => Return value
         | None => Raise IndexError
         end
     end, Eff.mkWorld s' (Eff.calls w ++ [Shell cmd_bluetooth_manager])).
Proof.
  intros H. unfold get_bluetooth_name, re_compile.
  rewrite compile_bluetooth_name. unfold Eff.bind at 1 2. unfold Eff.ret at 1.
  rewrite (Fallback.shell_run adb _ w _ _ H).
  cbv beta iota delta [Eff.bind Eff.ret Eff.raise re_search_compiled py_group py_int].
  destruct (Py.search re_bluetooth_name out) as [m|]; [|reflexivity].
  destruct (Py.group m 1); reflexivity.
Qed.

Lemma get_current_ssid_run {S WS T} (adb : AdbDevice S WS T) (w : Eff.World S) out s' :
  adb_shell adb cmd_netstats None (Eff.device w) = (Return out, s') ->
  get_current_ssid adb w
  = (match Py.search re_ssid out with
     | None => Return None
     | Some m =>
         match Py.group m 2 with
         | Some g => Return (Some g)
         | None => Raise IndexError
         end
     end, Eff.mkWorld s' (Eff.calls w ++ [Shell cmd_netstats])).
Proof.
  intros H. unfold get_current_ssid, re_compile.
  rewrite compile_ssid. unfold Eff.bind at 1 2. unfold Eff.ret at 1.
  rewrite (Fallback.shell_run adb _ w _ _ H).
  cbv beta iota delta [Eff.bind Eff.ret Eff.raise re_search_compiled py_group py_int].
  destruct (Py.search re_ssid out) as [m|]; [|reflexivity].
  destruct (Py.group m 2); reflexivity.
Qed.

Lemma get_system_version_run {S WS T} (adb : AdbDevice S WS T) lim
    (w : Eff.World S) out s' :
  adb_shell adb cmd_release None (Eff.device w) = (Return out, s') ->
  get_system_version adb lim w
  = (match Py.int lim out with
     | Some n => Return n
     | None => Raise ValueError
     end, Eff.mkWorld s' (Eff.calls w ++ [Shell cmd_release])).
Proof.
  intros H. unfold get_system_version, Eff.bind.
  rewrite (Fallback.shell_run adb _ w _ _ H).
  unfold py_int. destruct (Py.int lim out); reflexivity.
Qed.

(** [found] on a pattern whose abstract syntax is known. *)
Lemma found_compiled pat r out : Py.compile pat = Some r -> found pat out = Py.search r out.
Proof. intros H. unfold found. rewrite H. reflexivity. Qed.

(** *** No match *)

(** A device whose input-method dump lacks the [mInputShown] field: the
    search finds nothing and [is_ime_active] ends with [AttributeError]
    instead of a result. *)
Lemma no_match_raises :
  let adb := Fixtures.scripted [(cmd_ime_shown, Return "mShowRequested=false")] 0 in
  found pat_ime_shown "mShowRequested=false" = None
  /\ Driver.is_ime_active adb Fixtures.start
     = (Raise AttributeError, Eff.mkWorld tt [Shell cmd_ime_shown])
  /\ forall b w, Driver.is_ime_active adb Fixtures.start <> (Return b, w).
Proof.
  repeat split; try reflexivity. intros b w. vm_compute. discriminate.
Qed.

(** C3, as the code has it.  For [is_ime_active], [get_screen_timeout],
    [get_bluetooth_name] and [get_max_volume_level]: when the pattern has no
    match in the text the command printed, the search gives [None] and the
    accessor, which applies [.group(1)] to it, ends with [AttributeError];
    the command is the only call it adds to the log. *)
Theorem no_match_is_attribute_error {S WS T} (adb : AdbDevice S WS T) lim
    cmd pat run (w : Eff.World S) out s' :
  In (cmd, pat, run) (pattern_applying adb lim) ->
  adb_shell adb cmd None (Eff.device w) = (Return out, s') ->
  found pat out = None ->
  run w = (Some AttributeError, Eff.mkWorld s' (Eff.calls w ++ [Shell cmd])).
Proof.
  unfold pattern_applying. simpl.
  intros [Hin | [Hin | [Hin | [Hin | []]]]] H Hnone;
    inversion Hin; subst; clear Hin; unfold failure.
  - rewrite (is_ime_active_run adb w out s' H).
    rewrite (found_compiled _ _ out compile_ime_shown) in Hnone.
    rewrite Hnone. reflexivity.
  - unfold get_screen_timeout.
    rewrite (scrape_int_run adb lim _ _ _ w out s' compile_screen_timeout H).
    rewrite (found_compiled _ _ out compile_screen_timeout) in Hnone.
    rewrite Hnone. reflexivity.
  - rewrite (get_bluetooth_name_run adb w out s' H).
    rewrite (found_compiled _ _ out compile_bluetooth_name) in Hnone.
    rewrite Hnone. reflexivity.
  - unfold get_max_volume_level.
    rewrite (scrape_int_run adb lim _ _ _ w out s' compile_max H).
    rewrite (found_compiled _ _ out compile_max) in Hnone.
    rewrite Hnone. reflexivity.
Qed.

(** [get_bluetooth_name] on a dump without a name line. *)
Lemma no_match_is_attribute_error_witness :
  Tables.failure
    (Driver.get_bluetooth_name
       (Fixtures.scripted [(cmd_bluetooth_manager, Return "enabled: true")] 0))
    Fixtures.start
  = (Some AttributeError, Eff.mkWorld tt [Shell cmd_bluetooth_manager]).
Proof.
  apply (no_match_is_attribute_error
           (Fixtures.scripted [(cmd_bluetooth_manager, Return "enabled: true")] 0) 4300
           cmd_bluetooth_manager pat_bluetooth_name _ Fixtures.start
           "enabled: true" tt).
  - simpl. right. right. left. reflexivity.
  - reflexivity.
  - reflexivity.
Defined.

(** *** The maximum volume *)

Lemma max_at_line post :
  Py.match_at re_max ("Max: 15" ++ nl ++ post)
  = Some (Py.mkMatch ("Max: 15" ++ nl) [(1, "15")]).
Proof. reflexivity. Qed.

(** The search passes over text without ["Max: "] and stops at the line. *)
Lemma search_max_first_line pre post :
  Py.contains "Max: " pre = false ->
  Py.search re_max (pre ++ "Max: 15" ++ nl ++ post)
  = Some (Py.mkMatch ("Max: 15" ++ nl) [(1, "15")]).
Proof.
  intros H.
  rewrite (search_skips re_max _ (fun p => Py.contains "Max: " p = false)).
  - apply search_here, max_at_line.
  - intros a p. apply contains_tail.
  - intros a p Hp. apply no_literal_no_match.
    apply (max_no_straddle a p ("15" ++ nl ++ post) Hp).
  - exact H.
Qed.

Lemma search_max_nowhere out :
  Py.contains "Max:" out = false -> Py.search re_max out = None.
Proof.
  apply (search_nowhere re_max (fun s => Py.contains "Max:" s = false)).
  - intros a p. apply contains_tail.
  - intros s Hs. apply no_literal_no_match.
    apply contains_head, startswith_false in Hs.
    unfold Py.startswith.
    change "Max: " with ("Max:" ++ " "). rewrite strip_prefix_split, Hs. reflexivity.
Qed.

(** An output in which the line ["Max: 15"] comes second: the accessor
    returns the number of the first ["Max: "] line, 7. *)
Lemma max_line_not_first :
  let adb := Fixtures.scripted [(cmd_audio_music, Return Fixtures.two_max_lines)] 0 in
  Py.contains Fixtures.max_15 Fixtures.two_max_lines = true
  /\ Driver.get_max_volume_level adb 4300 Fixtures.start
     = (Return 7%Z, Eff.mkWorld tt [Shell cmd_audio_music])
  /\ fst (Driver.get_max_volume_level adb 4300 Fixtures.start) <> Return 15%Z.
Proof.
  repeat split; try reflexivity. vm_compute. discriminate.
Qed.

(** C7, as the code has it.  [get_max_volume_level] returns 15 when the
    first ["Max: "] of the command's output begins the line ["Max: 15"]
    ended by a newline; when the output has no ["Max:"] at all the search
    finds nothing, and the accessor ends with [AttributeError] and no
    value. *)
Theorem max_volume_first_max_line {S WS T} (adb : AdbDevice S WS T) lim
    (w : Eff.World S) out s' :
  adb_shell adb cmd_audio_music None (Eff.device w) = (Return out, s') ->
  (forall pre post,
      out = pre ++ "Max: 15" ++ nl ++ post ->
      Py.contains "Max: " pre = false ->
      get_max_volume_level adb lim w
      = (Return 15%Z, Eff.mkWorld s' (Eff.calls w ++ [Shell cmd_audio_music])))
  /\ (Py.contains "Max:" out = false ->
      found pat_max out = None
      /\ get_max_volume_level adb lim w
         = (Raise AttributeError,
            Eff.mkWorld s' (Eff.calls w ++ [Shell cmd_audio_music]))).
Proof.
  intros H. unfold get_max_volume_level.
  rewrite (scrape_int_run adb lim _ _ _ w out s' compile_max H).
  rewrite (found_compiled _ _ out compile_max).
  split.
  - intros pre post -> Hpre. rewrite (search_max_first_line pre post Hpre). reflexivity.
  - intros Hout. rewrite (search_max_nowhere out Hout). split; reflexivity.
Qed.

(** The volume block of an audio dump, and a dump without that block. *)
Lemma max_volume_first_max_line_witness :
  Driver.get_max_volume_level
    (Fixtures.scripted [(cmd_audio_music, Return Fixtures.stream_music)] 0) 4300
    Fixtures.start
  = (Return 15%Z, Eff.mkWorld tt [Shell cmd_audio_music])
  /\ (found pat_max "" = None
      /\ Driver.get_max_volume_level (Fixtures.scripted [] 0) 4300 Fixtures.start
         = (Raise AttributeError, Eff.mkWorld tt [Shell cmd_audio_music])).
Proof.
  split.
  - apply (max_volume_first_max_line
             (Fixtures.scripted [(cmd_audio_music, Return Fixtures.stream_music)] 0) 4300
             Fixtures.start Fixtures.stream_music tt (eq_refl _))
      with (pre := ("- STREAM_MUSIC:" ++ nl ++ "   Muted: false" ++ nl
                    ++ "   Min: 0" ++ nl ++ "   ")%string)
           (post := ("   streamVolume:8" ++ nl)%string); reflexivity.
  - apply (max_volume_first_max_line (Fixtures.scripted [] 0) 4300
             Fixtures.start "" tt (eq_refl _)).
    reflexivity.
Defined.

(** *** The SSID *)

Lemma ssid_at_key post :
  Py.match_at re_ssid (key_network_id ++ "abc123" ++ dq ++ post)
  = Some (Py.mkMatch Fixtures.ssid_abc123 [(2, "abc123"); (1, "networkId")]).
Proof. reflexivity. Qed.

Lemma search_ssid_first_key pre post :
  Py.contains key_network_id pre = false ->
  Py.contains key_wifi_network pre = false ->
  Py.search re_ssid (pre ++ key_network_id ++ "abc123" ++ dq ++ post)
  = Some (Py.mkMatch Fixtures.ssid_abc123 [(2, "abc123"); (1, "networkId")]).
Proof.
  intros H1 H2.
  rewrite (search_skips re_ssid _
             (fun p => Py.contains key_network_id p = false
                       /\ Py.contains key_wifi_network p = false)).
  - apply search_here, ssid_at_key.
  - intros a p [Ha Hb]. split; eapply contains_tail; eassumption.
  - intros a p [Ha Hb]. apply ssid_needs_key.
    + apply (network_id_no_straddle a p _ Ha).
    + apply (wifi_network_no_straddle a p _ Hb).
  - split; assumption.
Qed.

Lemma search_ssid_nowhere out :
  Py.contains key_network_id out = false ->
  Py.contains key_wifi_network out = false ->
  Py.search re_ssid out = None.
Proof.
  intros H1 H2.
  apply (search_nowhere re_ssid
           (fun p => Py.contains key_network_id p = false
                     /\ Py.contains key_wifi_network p = false)).
  - intros a p [Ha Hb]. split; eapply contains_tail; eassumption.
  - intros s [Ha Hb]. apply ssid_needs_key; apply contains_head; assumption.
  - split; assumption.
Qed.

(** An output that lists two networks: the accessor returns the first one,
    not ["abc123"]. *)
Lemma ssid_not_first :
  let adb := Fixtures.scripted [(cmd_netstats, Return Fixtures.two_networks)] 0 in
  Py.contains Fixtures.ssid_abc123 Fixtures.two_networks = true
  /\ Driver.get_current_ssid adb Fixtures.start
     = (Return (Some "home"), Eff.mkWorld tt [Shell cmd_netstats])
  /\ fst (Driver.get_current_ssid adb Fixtures.start) <> Return (Some "abc123").
Proof.
  repeat split; try reflexivity. vm_compute. discriminate.
Qed.

(** C8, as the code has it.  [get_current_ssid] returns ["abc123"], the
    second group, when the first [networkId="] or [wifiNetworkKey="] of the
    command's output begins [networkId="abc123"]; when the output has
    neither key it returns [None] and raises nothing. *)
Theorem current_ssid_first_key {S WS T} (adb : AdbDevice S WS T)
    (w : Eff.World S) out s' :
  adb_shell adb cmd_netstats None (Eff.device w) = (Return out, s') ->
  (forall pre post,
      out = pre ++ key_network_id ++ "abc123" ++ dq ++ post ->
      Py.contains key_network_id pre = false ->
      Py.contains key_wifi_network pre = false ->
      get_current_ssid adb w
      = (Return (Some "abc123"), Eff.mkWorld s' (Eff.calls w ++ [Shell cmd_netstats])))
  /\ (Py.contains key_network_id out = false ->
      Py.contains key_wifi_network out = false ->
      get_current_ssid adb w
      = (Return None, Eff.mkWorld s' (Eff.calls w ++ [Shell cmd_netstats]))).
Proof.
  intros H. rewrite (get_current_ssid_run adb w out s' H).
  split.
  - intros pre post -> H1 H2. rewrite (search_ssid_first_key pre post H1 H2). reflexivity.
  - intros H1 H2. rewrite (search_ssid_nowhere out H1 H2). reflexivity.
Qed.

(** A netstats line that names the network, and an output without one. *)
Lemma current_ssid_first_key_witness :
  Driver.get_current_ssid
    (Fixtures.scripted [(cmd_netstats, Return Fixtures.ident_line)] 0) Fixtures.start
  = (Return (Some "abc123"), Eff.mkWorld tt [Shell cmd_netstats])
  /\ Driver.get_current_ssid (Fixtures.scripted [] 0) Fixtures.start
     = (Return None, Eff.mkWorld tt [Shell cmd_netstats]).
Proof.
  split.
  - apply (current_ssid_first_key
             (Fixtures.scripted [(cmd_netstats, Return Fixtures.ident_line)] 0)
             Fixtures.start Fixtures.ident_line tt (eq_refl _))
      with (pre := "ident=[{type=WIFI, ") (post := ", metered=false}]"); reflexivity.
  - apply (current_ssid_first_key (Fixtures.scripted [] 0)
             Fixtures.start "" tt (eq_refl _)); reflexivity.
Defined.

End Extraction.

(** ** Integer coercion after extraction *)

Module Integers.

Import Driver Tables Patterns Extraction.

(** *** What a digit group captures *)

Lemma all_in_snoc c a : forall t,
  all_in c t = true -> Py.cset_mem c a = true -> all_in c (t ++ String a "") = true.
Proof.
  induction t as [|b t IH]; simpl; intros Ht Ha.
  - rewrite Ha. reflexivity.
  - apply andb_true_iff in Ht as [Hb Ht]. rewrite Hb. simpl. apply IH; assumption.
Qed.

Lemma snoc_not_empty t a : t ++ String a "" <> "".
Proof. destruct t; discriminate. Qed.

(** Whatever [star_greedy] hands to its continuation is the text it started
    with followed by characters of the class. *)
Lemma star_greedy_all_in {R} c : forall s acc (k : string -> string -> option R) r,
  all_in c acc = true -> acc <> "" ->
  Py.star_greedy c acc s k = Some r ->
  exists t s', all_in c t = true /\ t <> "" /\ k t s' = Some r.
Proof.
  induction s as [|a s IH]; intros acc k r Hacc Hne; simpl.
  - intros H. exists acc, "". auto.
  - destruct (Py.cset_mem c a) eqn:Ha.
    + unfold Py.orelse.
      destruct (Py.star_greedy c (acc ++ String a "") s k) as [x|] eqn:E.
      * intros Hx. inversion Hx; subst x.
        apply (IH _ k r (all_in_snoc c a acc Hacc Ha) (snoc_not_empty acc a) E).
      * intros H. exists acc, (String a s). auto.
    + intros H. exists acc, (String a s). auto.
Qed.

Lemma search_inv r : forall s m, Py.search r s = Some m -> exists s', Py.match_at r s' = Some m.
Proof.
  induction s as [|a s IH]; intros m; simpl; unfold Py.orelse.
  - destruct (Py.match_at r "") eqn:E; [|discriminate].
    intros H. exists "". congruence.
  - destruct (Py.match_at r (String a s)) eqn:E.
    + intros H. exists (String a s). congruence.
    + apply IH.
Qed.

Lemma screen_timeout_group s m :
  Py.match_at re_screen_timeout s = Some m ->
  exists g, Py.group m 1 = Some g /\ all_in digit g = true /\ g <> "".
Proof.
  unfold Py.match_at, re_screen_timeout. cbn [Py.match_here].
  destruct (Py.strip_prefix _ s) as [s1|]; [|discriminate].
  destruct s1 as [|a s1]; [discriminate|].
  destruct (Py.cset_mem digit a) eqn:Ha; [|discriminate].
  intros H. apply star_greedy_all_in in H as (t & s' & Ht & Hne & Hk).
  - inversion Hk; subst m. exists t. auto.
  - cbn [all_in]. rewrite Ha. reflexivity.
  - discriminate.
Qed.

Lemma max_group s m :
  Py.match_at re_max s = Some m ->
  exists g, Py.group m 1 = Some g /\ all_in digit g = true /\ g <> "".
Proof.
  unfold Py.match_at, re_max. cbn [Py.match_here].
  destruct (Py.strip_prefix _ s) as [s1|]; [|discriminate].
  destruct s1 as [|a s1]; [discriminate|].
  destruct (Py.cset_mem digit a) eqn:Ha; [|discriminate].
  intros H. apply star_greedy_all_in in H as (t & s' & Ht & Hne & Hk).
  - destruct (Py.strip_prefix nl s'); [|discriminate].
    inversion Hk; subst m. exists t. auto.
  - cbn [all_in]. rewrite Ha. reflexivity.
  - discriminate.
Qed.

Lemma digit_range a :
  Py.cset_mem digit a = true -> (48 <= nat_of_ascii a <= 57)%nat.
Proof.
  unfold digit, Py.cset_mem. intros H. apply andb_true_iff in H as [H1 H2].
  apply Nat.leb_le in H1, H2. exact (conj H1 H2).
Qed.

Lemma digit_val_digit a :
  Py.cset_mem digit a = true -> exists d, Py.digit_val a = Some d.
Proof.
  intros H. apply digit_range in H. unfold Py.digit_val.
  destruct (Nat.leb_spec 48 (nat_of_ascii a)); [|lia].
  destruct (Nat.leb_spec (nat_of_ascii a) 57); [|lia].
  simpl. eauto.
Qed.

Lemma more_digits_all : forall g acc,
  all_in digit g = true -> exists n, Py.more_digits acc g = Some (n, "").
Proof.
  induction g as [|a g IH]; intros acc H; simpl.
  - eauto.
  - cbn [all_in] in H. apply andb_true_iff in H as [Ha Hg].
    destruct (digit_val_digit a Ha) as [d ->]. apply IH. exact Hg.
Qed.

Lemma eqb_code a b : Ascii.eqb a b = true -> nat_of_ascii a = nat_of_ascii b.
Proof. intros H. apply Ascii.eqb_eq in H. congruence. Qed.

Lemma int_of_digits g :
  all_in digit g = true -> g <> "" -> exists n, Py.parse_int g = Some n.
Proof.
  destruct g as [|a g]; [congruence|]. intros H _.
  cbn [all_in] in H. apply andb_true_iff in H as [Ha Hg].
  pose proof (digit_range a Ha) as Hr.
  unfold Py.parse_int. cbn [Py.skip_spaces].
  assert (Hs : Py.is_space a = false).
  { unfold Py.is_space.
    destruct (Nat.leb_spec 9 (nat_of_ascii a)); [|lia].
    destruct (Nat.leb_spec (nat_of_ascii a) 13); [lia|].
    destruct (Nat.eqb_spec (nat_of_ascii a) 32); [lia|].
    destruct (Nat.eqb_spec (nat_of_ascii a) 133); [lia|].
    destruct (Nat.eqb_spec (nat_of_ascii a) 160); [lia|]. reflexivity. }
  rewrite Hs. unfold Py.signed.
  destruct (Ascii.eqb a "+") eqn:E1;
    [apply eqb_code in E1; change (nat_of_ascii "+") with 43 in E1; lia|].
  destruct (Ascii.eqb a "-") eqn:E2;
    [apply eqb_code in E2; change (nat_of_ascii "-") with 45 in E2; lia|].
  unfold Py.digits. destruct (digit_val_digit a Ha) as [d ->].
  destruct (more_digits_all g d Hg) as [n ->]. simpl. eauto.
Qed.

(** The text group 1 of the two digit patterns captures always reads as a
    number: only the digit cap can make [int] reject it. *)
Lemma captured_digits_parse pat out g :
  pat = pat_screen_timeout \/ pat = pat_max ->
  extract pat 1 out = Some g -> exists n, Py.parse_int g = Some n.
Proof.
  unfold extract.
  intros [-> | ->].
  - rewrite (found_compiled _ _ out compile_screen_timeout).
    destruct (Py.search re_screen_timeout out) as [m|] eqn:E; [|discriminate].
    apply search_inv in E as [s' E]. apply screen_timeout_group in E as (g' & Hg & Hd & Hne).
    rewrite Hg. intros H. inversion H; subst. apply int_of_digits; assumption.
  - rewrite (found_compiled _ _ out compile_max).
    destruct (Py.search re_max out) as [m|] eqn:E; [|discriminate].
    apply search_inv in E as [s' E]. apply max_group in E as (g' & Hg & Hd & Hne).
    rewrite Hg. intros H. inversion H; subst. apply int_of_digits; assumption.
Qed.

(** C5.  For [get_system_version], [get_screen_timeout] and
    [get_max_volume_level]: when the text handed to [int] (the whole output
    for the first, group 1 of the match for the other two) is text [int]
    rejects, the accessor ends with the [ValueError] of [int]; the one
    command is the only call it adds to the log, so nothing else is tried.
    A group of digits is rejected when it has more digits than the cap in
    force allows. *)
Theorem unparseable_int_raises {S WS T} (adb : AdbDevice S WS T) lim
    cmd ex acc (w : Eff.World S) out s' g :
  In (cmd, ex, acc) (integer_valued adb lim) ->
  adb_shell adb cmd None (Eff.device w) = (Return out, s') ->
  ex out = Some g ->
  Py.int lim g = None ->
  acc w = (Raise ValueError, Eff.mkWorld s' (Eff.calls w ++ [Shell cmd])).
Proof.
  unfold integer_valued. simpl.
  intros [Hin | [Hin | [Hin | []]]] H Hex Hint; inversion Hin; subst; clear Hin.
  - inversion Hex; subst g.
    rewrite (get_system_version_run adb lim w out s' H), Hint. reflexivity.
  - unfold get_screen_timeout.
    rewrite (scrape_int_run adb lim _ _ _ w out s' compile_screen_timeout H).
    unfold extract in Hex. rewrite (found_compiled _ _ out compile_screen_timeout) in Hex.
    destruct (Py.search re_screen_timeout out); [|discriminate].
    rewrite Hex, Hint. reflexivity.
  - unfold get_max_volume_level.
    rewrite (scrape_int_run adb lim _ _ _ w out s' compile_max H).
    unfold extract in Hex. rewrite (found_compiled _ _ out compile_max) in Hex.
    destruct (Py.search re_max out); [|discriminate].
    rewrite Hex, Hint. reflexivity.
Qed.

(** One input for each accessor: a release name with dots under the default
    cap, and a time-out and a volume of 641 digits under a cap of 640. *)
Lemma unparseable_int_raises_witness :
  Driver.get_system_version (Fixtures.scripted [(cmd_release, Return "8.1.0")] 0) 4300
    Fixtures.start
  = (Raise ValueError, Eff.mkWorld tt [Shell cmd_release])
  /\ Driver.get_screen_timeout
       (Fixtures.scripted [(cmd_screen_timeout, Return Fixtures.long_timeout)] 0) 640
       Fixtures.start
     = (Raise ValueError, Eff.mkWorld tt [Shell cmd_screen_timeout])
  /\ Driver.get_max_volume_level
       (Fixtures.scripted [(cmd_audio_music, Return Fixtures.long_max)] 0) 640
       Fixtures.start
     = (Raise ValueError, Eff.mkWorld tt [Shell cmd_audio_music]).
Proof.
  split; [|split].
  - apply (unparseable_int_raises
             (Fixtures.scripted [(cmd_release, Return "8.1.0")] 0) 4300
             cmd_release (fun out => Some out) _ Fixtures.start "8.1.0" tt "8.1.0").
    + left. reflexivity.
    + reflexivity.
    + reflexivity.
    + reflexivity.
  - apply (unparseable_int_raises
             (Fixtures.scripted [(cmd_screen_timeout, Return Fixtures.long_timeout)] 0)
             640 cmd_screen_timeout (extract pat_screen_timeout 1) _ Fixtures.start
             Fixtures.long_timeout tt (Fixtures.ones 641)).
    + right. left. reflexivity.
    + reflexivity.
    + vm_compute. reflexivity.
    + vm_compute. reflexivity.
  - apply (unparseable_int_raises
             (Fixtures.scripted [(cmd_audio_music, Return Fixtures.long_max)] 0)
             640 cmd_audio_music (extract pat_max 1) _ Fixtures.start
             Fixtures.long_max tt (Fixtures.ones 641)).
    + right. right. left. reflexivity.
    + reflexivity.
    + vm_compute. reflexivity.
    + vm_compute. reflexivity.
Defined.

End Integers.

(** ** The digit cap of [int] *)

Module DigitCap.

Import Driver Tables MoreTables.

(** What [int] accepts, [parse_int] reads the same way. *)
Lemma int_parse lim s n : Py.int lim s = Some n -> Py.parse_int s = Some n.
Proof.
  unfold Py.int. destruct (Py.parse_int s) as [k|]; [|discriminate].
  destruct (Py.over_cap lim s); [discriminate | trivial].
Qed.

(** A text with few enough digits is never checked against the cap. *)
Lemma int_few_digits lim s :
  Py.count_digits s <= Py.str_digits_check_threshold -> Py.int lim s = Py.parse_int s.
Proof.
  intros H. unfold Py.int, Py.over_cap.
  rewrite (proj2 (Nat.ltb_ge _ _) H).
  destruct (Py.parse_int s); reflexivity.
Qed.

(** A cap of 0 is no cap. *)
Lemma int_no_cap s : Py.int 0 s = Py.parse_int s.
Proof.
  unfold Py.int, Py.over_cap. rewrite Nat.ltb_irrefl, andb_false_r.
  destruct (Py.parse_int s); reflexivity.
Qed.

Lemma length_app (a b : string) :
  String.length (a ++ b) = String.length a + String.length b.
Proof. induction a as [|x a IH]; simpl; congruence. Qed.

Lemma count_digits_app (a b : string) :
  Py.count_digits (a ++ b) = Py.count_digits a + Py.count_digits b.
Proof.
  induction a as [|x a IH]; cbn [append Py.count_digits]; [reflexivity|].
  destruct (Py.digit_val x); rewrite IH; reflexivity.
Qed.

Lemma count_digits_le_length s : Py.count_digits s <= String.length s.
Proof.
  induction s as [|x s IH]; cbn [Py.count_digits String.length]; [lia|].
  destruct (Py.digit_val x); lia.
Qed.

Lemma int_short lim s :
  String.length s <= Py.str_digits_check_threshold -> Py.int lim s = Py.parse_int s.
Proof.
  intros H. apply int_few_digits. pose proof (count_digits_le_length s). lia.
Qed.

End DigitCap.

(** ** Substring tests *)

Module Substrings.

Import Driver Tables MoreTables Patterns.

Lemma append_assoc (a b c : string) : (a ++ b) ++ c = a ++ (b ++ c).
Proof. induction a as [|x a IH]; simpl; congruence. Qed.

Lemma append_empty_r (a : string) : a ++ "" = a.
Proof. induction a as [|x a IH]; simpl; congruence. Qed.

Lemma contains_app n post : forall pre, Py.contains n (pre ++ n ++ post) = true.
Proof.
  induction pre as [|a pre IH].
  - change ("" ++ n ++ post) with (n ++ post).
    apply contains_startswith, startswith_app.
  - change (String a pre ++ n ++ post) with (String a (pre ++ n ++ post)).
    cbn [Py.contains]. rewrite IH. destruct (Py.startswith _ n); reflexivity.
Qed.

Lemma contains_inv n : forall s,
  Py.contains n s = true -> exists pre post, s = pre ++ n ++ post.
Proof.
  induction s as [|a s IH]; cbn [Py.contains]; unfold Py.startswith.
  - destruct (Py.strip_prefix n "") as [s'|] eqn:E; [|discriminate].
    intros _. exists "", s'. apply strip_prefix_Some in E. exact E.
  - destruct (Py.strip_prefix n (String a s)) as [s'|] eqn:E.
    + intros _. exists "", s'. apply strip_prefix_Some in E. exact E.
    + intros H. destruct (IH H) as (pre & post & ->).
      exists (String a pre), post. reflexivity.
Qed.

(** [in] is the substring relation. *)
Lemma contains_iff n s :
  Py.contains n s = true <-> exists pre post, s = pre ++ n ++ post.
Proof.
  split; [apply contains_inv|]. intros (pre & post & ->). apply contains_app.
Qed.

(** X3.  [wifi_on] and [airplane_mode_on]: once the command has printed [out],
    the accessor returns a boolean, never raises, and the boolean is [True]
    exactly when the needle (["enabled"], ["enable"]) occurs somewhere in
    [out]. *)
Theorem substring_test_exact {S WS T} (adb : AdbDevice S WS T)
    cmd needle acc (w : Eff.World S) out s' :
  In (cmd, needle, acc) (substring_tests adb) ->
  adb_shell adb cmd None (Eff.device w) = (Return out, s') ->
  exists b,
    acc w = (Return b, Eff.mkWorld s' (Eff.calls w ++ [Shell cmd]))
    /\ (b = true <-> exists pre post, out = pre ++ needle ++ post).
Proof.
  unfold substring_tests. simpl.
  intros [Hin | [Hin | []]] H; inversion Hin; subst; clear Hin.
  - exists (Py.contains "enabled" out). split; [|apply contains_iff].
    unfold wifi_on, Eff.bind. rewrite (Fallback.shell_run adb _ w _ _ H). reflexivity.
  - exists (Py.contains "enable" out). split; [|apply contains_iff].
    unfold airplane_mode_on, Eff.bind. rewrite (Fallback.shell_run adb _ w _ _ H).
    reflexivity.
Qed.

Lemma substring_test_exact_witness :
  exists b,
    Driver.wifi_on (Fixtures.scripted [(cmd_wifi, Return "Wi-Fi is enabled")] 0)
      Fixtures.start
    = (Return b, Eff.mkWorld tt [Shell cmd_wifi])
    /\ (b = true <-> exists pre post, "Wi-Fi is enabled" = pre ++ "enabled" ++ post).
Proof.
  apply (substring_test_exact
           (Fixtures.scripted [(cmd_wifi, Return "Wi-Fi is enabled")] 0)
           cmd_wifi "enabled" _ Fixtures.start "Wi-Fi is enabled" tt).
  - simpl. left. reflexivity.
  - reflexivity.
Defined.

End Substrings.

(** ** Command chains *)

Module Chains.

Import Driver Tables MoreTables Patterns.

(** X1.  [get_brand], [get_locale], [get_device_model]: when the first command
    prints nothing, whatever the second command does is the accessor's
    outcome: its text, be it empty, or its exception. *)
Theorem fallback_result_is_final {S WS T} (adb : AdbDevice S WS T)
    c1 c2 acc (w : Eff.World S) s1 r s2 :
  In (c1, c2, acc) (two_strategy adb) ->
  adb_shell adb c1 None (Eff.device w) = (Return "", s1) ->
  adb_shell adb c2 None s1 = (r, s2) ->
  acc w = (r, Eff.mkWorld s2 (Eff.calls w ++ [Shell c1; Shell c2])).
Proof.
  intros Hin H1 H2.
  destruct (Fallback.two_strategy_shape adb c1 c2 acc Hin) as [-> _].
  rewrite (Fallback.py_or_falls_through _ _ w _ (Fallback.shell_run adb c1 w _ _ H1)).
  rewrite (Fallback.shell_run adb c2 (Eff.mkWorld s1 (Eff.calls w ++ [Shell c1])) r s2 H2).
  simpl. rewrite <- app_assoc. reflexivity.
Qed.

(** Both properties unset: [get_brand] returns the empty text. *)
Lemma fallback_result_is_final_witness :
  Driver.get_brand (Fixtures.scripted [] 0) Fixtures.start
  = (Return "", Eff.mkWorld tt [Shell cmd_romtype; Shell cmd_manufacturer]).
Proof.
  apply (fallback_result_is_final (Fixtures.scripted [] 0)
           cmd_romtype cmd_manufacturer _ Fixtures.start tt (Return "") tt).
  - simpl. left. reflexivity.
  - reflexivity.
  - reflexivity.
Defined.

(** X2.  Every accessor that runs a shell command: when the first command it runs
    raises, the accessor ends with that same exception and that command is
    the only call it adds to the log. *)
Theorem first_command_failure_propagates {S WS T} (adb : AdbDevice S WS T) lim
    cmd run (w : Eff.World S) e s' :
  In (cmd, run) (shell_first adb lim) ->
  adb_shell adb cmd None (Eff.device w) = (Raise e, s') ->
  run w = (Some e, Eff.mkWorld s' (Eff.calls w ++ [Shell cmd])).
Proof.
  unfold shell_first. simpl. intros Hin H.
  repeat (destruct Hin as [Hin | Hin];
          [ inversion Hin; subst; clear Hin; unfold failure;
            cbv beta iota delta
              [bluetooth_on wifi_on airplane_mode_on is_ime_active get_brand
               get_orientation get_locale get_system_version get_build_number
               get_device_model get_current_ime get_screen_timeout
               get_max_volume_level get_max_notification_level
               get_volume_music_speaker get_volume_notification_speaker
               get_current_ssid get_bluetooth_name get_screen_brightness
               py_or re_compile Eff.bind Eff.ret];
            try rewrite compile_ssid; try rewrite compile_bluetooth_name;
            cbv beta iota;
            rewrite (Fallback.shell_run adb _ w _ _ H); reflexivity
          | ]).
  destruct Hin.
Qed.

Lemma first_command_failure_propagates_witness :
  Tables.failure
    (Driver.get_current_ssid
       (Fixtures.scripted [(cmd_netstats, Raise (CommandFailure "offline"))] 0))
    Fixtures.start
  = (Some (CommandFailure "offline"), Eff.mkWorld tt [Shell cmd_netstats]).
Proof.
  apply (first_command_failure_propagates
           (Fixtures.scripted [(cmd_netstats, Raise (CommandFailure "offline"))] 0) 4300
           cmd_netstats _ Fixtures.start (CommandFailure "offline") tt).
  - simpl. do 16 right. left. reflexivity.
  - reflexivity.
Defined.

End Chains.

(** ** How the matcher consumes text *)

Module Consumption.

Import Driver Tables MoreTables Patterns Substrings.

Ltac close_split H :=
  repeat split; try reflexivity; rewrite ?append_empty_r; solve [exact H | auto].

Lemma snoc_app (acc : string) a d : (acc ++ String a "") ++ d = acc ++ String a d.
Proof. rewrite append_assoc. reflexivity. Qed.

(** A greedy repetition in front of a run [d] of characters of the class
    that is followed by none takes the whole run, when the rest of the
    pattern accepts what comes after. *)
Lemma star_greedy_takes {R} c (k : string -> string -> option R) r : forall d acc post,
  all_in c d = true ->
  (forall a t, post = String a t -> Py.cset_mem c a = false) ->
  k (acc ++ d) post = Some r ->
  Py.star_greedy c acc (d ++ post) k = Some r.
Proof.
  induction d as [|b d IH]; intros acc post Hd Hpost Hk.
  - rewrite append_empty_r in Hk. cbn [append].
    destruct post as [|a t]; cbn [Py.star_greedy]; [exact Hk|].
    rewrite (Hpost a t eq_refl). exact Hk.
  - cbn [all_in] in Hd. apply andb_true_iff in Hd as [Hb Hd].
    cbn [append Py.star_greedy]. rewrite Hb.
    rewrite (IH (acc ++ String b "") post Hd Hpost); [reflexivity|].
    rewrite snoc_app. exact Hk.
Qed.

(** What a greedy repetition hands on: the text it was given split into a
    run of the class and the rest. *)
Lemma star_greedy_split {R} c (k : string -> string -> option R) r : forall s acc,
  Py.star_greedy c acc s k = Some r ->
  exists t s', s = t ++ s' /\ all_in c t = true /\ k (acc ++ t) s' = Some r.
Proof.
  induction s as [|a s IH]; intros acc; cbn [Py.star_greedy].
  - intros H. exists "", "". close_split H.
  - destruct (Py.cset_mem c a) eqn:Ha.
    + unfold Py.orelse.
      destruct (Py.star_greedy c (acc ++ String a "") s k) as [x|] eqn:E.
      * intros Hx. inversion Hx; subst x.
        destruct (IH _ E) as (t & s' & -> & Ht & Hk).
        exists (String a t), s'. rewrite snoc_app in Hk.
        cbn [all_in]. rewrite Ha, Ht. auto.
      * intros H. exists "", (String a s). close_split H.
    + intros H. exists "", (String a s). close_split H.
Qed.

(** The same for the lazy repetition. *)
Lemma star_lazy_split {R} c (k : string -> string -> option R) r : forall s acc,
  Py.star_lazy c acc s k = Some r ->
  exists t s', s = t ++ s' /\ all_in c t = true /\ k (acc ++ t) s' = Some r.
Proof.
  induction s as [|a s IH]; intros acc; cbn [Py.star_lazy]; unfold Py.orelse.
  - destruct (k acc "") as [x|] eqn:E; [|discriminate].
    intros H. rewrite <- H in *. exists "", "". close_split E.
  - destruct (k acc (String a s)) as [x|] eqn:E.
    + intros H. rewrite <- H in *. exists "", (String a s). close_split E.
    + destruct (Py.cset_mem c a) eqn:Ha; [|discriminate].
      intros H. destruct (IH _ H) as (t & s' & -> & Ht & Hk).
      exists (String a t), s'. rewrite snoc_app in Hk.
      cbn [all_in]. rewrite Ha, Ht. auto.
Qed.

(** A lazy repetition stops at the first place where the rest of the
    pattern accepts: it takes the run [v] when the rest of the pattern
    rejects every earlier stop. *)
Lemma star_lazy_takes {R} c (k : string -> string -> option R) r post : forall v acc,
  all_in c v = true ->
  (forall v1 a v2, v = v1 ++ String a v2 -> k (acc ++ v1) (String a v2 ++ post) = None) ->
  k (acc ++ v) post = Some r ->
  Py.star_lazy c acc (v ++ post) k = Some r.
Proof.
  induction v as [|b v IH]; intros acc Hv Hearly Hk.
  - rewrite append_empty_r in Hk. cbn [append].
    destruct post; cbn [Py.star_lazy]; rewrite Hk; reflexivity.
  - cbn [all_in] in Hv. apply andb_true_iff in Hv as [Hb Hv].
    cbn [append Py.star_lazy].
    pose proof (Hearly "" b v eq_refl) as H0. rewrite append_empty_r in H0.
    cbn [append] in H0. rewrite H0. cbn [Py.orelse]. rewrite Hb.
    apply IH; auto.
    + intros v1 a v2 ->. rewrite snoc_app.
      apply (Hearly (String b v1) a v2). reflexivity.
    + rewrite snoc_app. exact Hk.
Qed.

(** *** Where a found match lies *)

Lemma search_suffix r : forall s m,
  Py.search r s = Some m -> exists pre s', s = pre ++ s' /\ Py.match_at r s' = Some m.
Proof.
  induction s as [|a s IH]; intros m; cbn [Py.search]; unfold Py.orelse.
  - destruct (Py.match_at r "") eqn:E; [|discriminate].
    intros H. exists "", "". split; [reflexivity | congruence].
  - destruct (Py.match_at r (String a s)) eqn:E.
    + intros H. exists "", (String a s). split; [reflexivity | congruence].
    + intros H. destruct (IH m H) as (pre & s' & -> & Hm).
      exists (String a pre), s'. auto.
Qed.

Lemma search_finds r s' m : forall pre,
  Py.match_at r s' = Some m -> exists m', Py.search r (pre ++ s') = Some m'.
Proof.
  induction pre as [|a pre IH]; intros Hm.
  - exists m. apply search_here. exact Hm.
  - change (String a pre ++ s') with (String a (pre ++ s')).
    cbn [Py.search]. unfold Py.orelse.
    destruct (Py.match_at r (String a (pre ++ s'))); eauto.
Qed.

End Consumption.

(** ** The digit-scraping accessors *)

Module Digits.

Import Driver Tables MoreTables Patterns Substrings Consumption.

(** *** Keys that cannot overlap themselves *)

Lemma speaker_no_straddle a p rest :
  Py.contains "speaker=" (String a p) = false ->
  Py.startswith (String a p ++ "speaker=" ++ rest) "speaker=" = false.
Proof.
  intros H. destruct (Py.startswith _ _) eqn:E; [exfalso|reflexivity].
  apply contains_head in H. unfold Py.startswith in E.
  walk E p.
  pose proof (startswith_app "speaker=" p) as H'. cbv [append] in H'. congruence.
Qed.

Lemma screen_timeout_no_straddle a p rest :
  Py.contains "mScreenOffTimeoutSetting=" (String a p) = false ->
  Py.startswith (String a p ++ "mScreenOffTimeoutSetting=" ++ rest)
    "mScreenOffTimeoutSetting=" = false.
Proof.
  intros H. destruct (Py.startswith _ _) eqn:E; [exfalso|reflexivity].
  apply contains_head in H. unfold Py.startswith in E.
  walk E p.
  pose proof (startswith_app "mScreenOffTimeoutSetting=" p) as H'.
  cbv [append] in H'. congruence.
Qed.

(** The search passes over a stretch without the key a pattern starts
    with. *)
Lemma search_from_key key r' rest m pre :
  (forall a p, Py.contains key (String a p) = false ->
               Py.startswith (String a p ++ key ++ rest) key = false) ->
  Py.contains key pre = false ->
  Py.match_at (Py.Cat (Py.Lit key) r') (key ++ rest) = Some m ->
  Py.search (Py.Cat (Py.Lit key) r') (pre ++ key ++ rest) = Some m.
Proof.
  intros Hover Hpre Hm.
  rewrite (search_skips _ _ (fun p => Py.contains key p = false)).
  - apply search_here. exact Hm.
  - intros a p. apply contains_tail.
  - intros a p Hp. apply no_literal_no_match. apply Hover. exact Hp.
  - exact Hpre.
Qed.

(** *** The digit group *)

Lemma key_digits_at key d post :
  all_in digit d = true -> d <> "" -> no_digit_ahead post ->
  Py.match_at (Py.Cat (Py.Lit key) (Py.Grp 1 (Py.Plus digit))) (key ++ d ++ post)
  = Some (Py.mkMatch (key ++ d) [(1, d)]).
Proof.
  intros Hd Hne Hpost. destruct d as [|a d]; [congruence|].
  cbn [all_in] in Hd. apply andb_true_iff in Hd as [Ha Hd].
  unfold Py.match_at. cbn [Py.match_here]. rewrite strip_prefix_app.
  cbn [append]. rewrite Ha.
  apply star_greedy_takes; [exact Hd | | reflexivity].
  intros b t ->. exact Hpost.
Qed.

Lemma key_digits_line_at key d post :
  all_in digit d = true -> d <> "" ->
  Py.match_at (Py.Cat (Py.Lit key) (Py.Cat (Py.Grp 1 (Py.Plus digit)) (Py.Lit nl)))
    (key ++ d ++ nl ++ post)
  = Some (Py.mkMatch (key ++ d ++ nl) [(1, d)]).
Proof.
  intros Hd Hne. destruct d as [|a d]; [congruence|].
  cbn [all_in] in Hd. apply andb_true_iff in Hd as [Ha Hd].
  unfold Py.match_at. cbn [Py.match_here]. rewrite strip_prefix_app.
  cbn [append]. rewrite Ha.
  apply star_greedy_takes; [exact Hd | | reflexivity].
  intros b t Hb. inversion Hb. reflexivity.
Qed.

Lemma key_digits_group key s m :
  Py.match_at (Py.Cat (Py.Lit key) (Py.Grp 1 (Py.Plus digit))) s = Some m ->
  exists g, Py.group m 1 = Some g /\ all_in digit g = true /\ g <> ""
            /\ String.length g <= String.length s.
Proof.
  unfold Py.match_at. cbn [Py.match_here].
  destruct (Py.strip_prefix key s) as [s1|] eqn:E0; [|discriminate].
  apply strip_prefix_Some in E0. subst s.
  destruct s1 as [|a s1]; [discriminate|].
  destruct (Py.cset_mem digit a) eqn:Ha; [|discriminate].
  intros H. apply star_greedy_split in H as (t & s' & -> & Ht & Hk).
  inversion Hk; subst m. exists (String a t). cbn [all_in]. rewrite Ha, Ht.
  repeat split; try reflexivity; try discriminate.
  rewrite DigitCap.length_app. cbn [String.length]. rewrite DigitCap.length_app. lia.
Qed.

Lemma key_digits_line_group key s m :
  Py.match_at (Py.Cat (Py.Lit key) (Py.Cat (Py.Grp 1 (Py.Plus digit)) (Py.Lit nl))) s
  = Some m ->
  exists g, Py.group m 1 = Some g /\ all_in digit g = true /\ g <> ""
            /\ String.length g <= String.length s.
Proof.
  unfold Py.match_at. cbn [Py.match_here].
  destruct (Py.strip_prefix key s) as [s1|] eqn:E0; [|discriminate].
  apply strip_prefix_Some in E0. subst s.
  destruct s1 as [|a s1]; [discriminate|].
  destruct (Py.cset_mem digit a) eqn:Ha; [|discriminate].
  intros H. apply star_greedy_split in H as (t & s' & -> & Ht & Hk).
  destruct (Py.strip_prefix nl s'); [|discriminate].
  inversion Hk; subst m. exists (String a t). cbn [all_in]. rewrite Ha, Ht.
  repeat split; try reflexivity; try discriminate.
  rewrite DigitCap.length_app. cbn [String.length]. rewrite DigitCap.length_app. lia.
Qed.

(** A run of digits reads as a number that is not negative. *)
Lemma more_digits_nonneg : forall g acc,
  all_in digit g = true -> (0 <= acc)%Z ->
  exists n, Py.more_digits acc g = Some (n, "") /\ (0 <= n)%Z.
Proof.
  induction g as [|a g IH]; intros acc H Hacc; cbn [Py.more_digits].
  - eauto.
  - cbn [all_in] in H. apply andb_true_iff in H as [Ha Hg].
    pose proof (Integers.digit_range a Ha) as Hr.
    unfold Py.digit_val.
    destruct (Nat.leb_spec 48 (nat_of_ascii a)); [|lia].
    destruct (Nat.leb_spec (nat_of_ascii a) 57); [|lia].
    cbn [andb]. apply IH; [exact Hg | lia].
Qed.

Lemma int_digits_nonneg g :
  all_in digit g = true -> g <> "" ->
  exists n, Py.parse_int g = Some n /\ (0 <= n)%Z.
Proof.
  destruct g as [|a g]; [congruence|]. intros H _.
  cbn [all_in] in H. apply andb_true_iff in H as [Ha Hg].
  pose proof (Integers.digit_range a Ha) as Hr.
  unfold Py.parse_int. cbn [Py.skip_spaces].
  assert (Hs : Py.is_space a = false).
  { unfold Py.is_space.
    destruct (Nat.leb_spec 9 (nat_of_ascii a)); [|lia].
    destruct (Nat.leb_spec (nat_of_ascii a) 13); [lia|].
    destruct (Nat.eqb_spec (nat_of_ascii a) 32); [lia|].
    destruct (Nat.eqb_spec (nat_of_ascii a) 133); [lia|].
    destruct (Nat.eqb_spec (nat_of_ascii a) 160); [lia|]. reflexivity. }
  rewrite Hs. unfold Py.signed.
  destruct (Ascii.eqb a "+") eqn:E1;
    [apply Integers.eqb_code in E1; change (nat_of_ascii "+") with 43 in E1; lia|].
  destruct (Ascii.eqb a "-") eqn:E2;
    [apply Integers.eqb_code in E2; change (nat_of_ascii "-") with 45 in E2; lia|].
  unfold Py.digits, Py.digit_val.
  destruct (Nat.leb_spec 48 (nat_of_ascii a)); [|lia].
  destruct (Nat.leb_spec (nat_of_ascii a) 57); [|lia].
  cbn [andb].
  destruct (more_digits_nonneg g (Z.of_nat (nat_of_ascii a - 48)) Hg) as (k & -> & Hk);
    [lia|].
  cbn [Py.skip_spaces]. exists (1 * k)%Z. split; [reflexivity | lia].
Qed.

(** *** The accessors *)

(** X4.  [get_screen_timeout], [get_max_volume_level],
    [get_max_notification_level] and [get_volume_music_speaker]: when the
    first occurrence of the key in the command's output is followed by a
    run of digits [d], then by the pattern's closing literal (a newline for
    the two volume levels, nothing for the others) and by no further digit,
    the accessor returns [int(d)], for every [d] that [int] accepts under
    the digit cap in force. *)
Theorem digit_scrape_first_key {S WS T} (adb : AdbDevice S WS T) lim
    cmd key stop acc (w : Eff.World S) pre d post n s' :
  In (cmd, key, stop, acc) (digit_scraping adb lim) ->
  adb_shell adb cmd None (Eff.device w)
  = (Return (pre ++ key ++ d ++ stop ++ post), s') ->
  Py.contains key pre = false ->
  all_in digit d = true ->
  d <> "" ->
  no_digit_ahead (stop ++ post) ->
  Py.int lim d = Some n ->
  acc w = (Return n, Eff.mkWorld s' (Eff.calls w ++ [Shell cmd])).
Proof.
  unfold digit_scraping. simpl In.
  intros [Hin | [Hin | [Hin | [Hin | []]]]] H Hpre Hd Hne Hpost Hint;
    inversion Hin; subst; clear Hin.
  - unfold get_screen_timeout.
    rewrite (Extraction.scrape_int_run adb lim _ _ _ w _ s' compile_screen_timeout H).
    change ("" ++ post) with post in *. unfold re_screen_timeout.
    rewrite (search_from_key _ _ _ _ pre
               (fun a p => screen_timeout_no_straddle a p _) Hpre
               (key_digits_at _ d post Hd Hne Hpost)).
    cbn [Py.group Py.groups Py.lookup Nat.eqb]. rewrite Hint. reflexivity.
  - unfold get_max_volume_level.
    rewrite (Extraction.scrape_int_run adb lim _ _ _ w _ s' compile_max H).
    unfold re_max.
    rewrite (search_from_key _ _ _ _ pre
               (fun a p => max_no_straddle a p _) Hpre
               (key_digits_line_at _ d post Hd Hne)).
    cbn [Py.group Py.groups Py.lookup Nat.eqb]. rewrite Hint. reflexivity.
  - unfold get_max_notification_level.
    rewrite (Extraction.scrape_int_run adb lim _ _ _ w _ s' compile_max H).
    unfold re_max.
    rewrite (search_from_key _ _ _ _ pre
               (fun a p => max_no_straddle a p _) Hpre
               (key_digits_line_at _ d post Hd Hne)).
    cbn [Py.group Py.groups Py.lookup Nat.eqb]. rewrite Hint. reflexivity.
  - unfold get_volume_music_speaker.
    rewrite (Extraction.scrape_int_run adb lim _ _ _ w _ s' compile_speaker H).
    change ("" ++ post) with post in *. unfold re_speaker.
    rewrite (search_from_key _ _ _ _ pre
               (fun a p => speaker_no_straddle a p _) Hpre
               (key_digits_at _ d post Hd Hne Hpost)).
    cbn [Py.group Py.groups Py.lookup Nat.eqb]. rewrite Hint. reflexivity.
Qed.

(** A power dump whose time-out line is followed by other fields. *)
Lemma digit_scrape_first_key_witness :
  Driver.get_screen_timeout
    (Fixtures.scripted
       [(cmd_screen_timeout,
         Return "  mScreenOffTimeoutSetting=30000 mSleepTimeoutSetting=-1")] 0) 4300
    Fixtures.start
  = (Return 30000%Z, Eff.mkWorld tt [Shell cmd_screen_timeout]).
Proof.
  apply (digit_scrape_first_key
           (Fixtures.scripted
              [(cmd_screen_timeout,
                Return "  mScreenOffTimeoutSetting=30000 mSleepTimeoutSetting=-1")] 0) 4300
           cmd_screen_timeout "mScreenOffTimeoutSetting=" "" _ Fixtures.start
           "  " "30000" " mSleepTimeoutSetting=-1" 30000%Z tt).
  - simpl. left. reflexivity.
  - reflexivity.
  - reflexivity.
  - reflexivity.
  - discriminate.
  - reflexivity.
  - reflexivity.
Defined.

(** X5.  [get_screen_timeout], [get_max_volume_level],
    [get_max_notification_level] and [get_volume_music_speaker], on any
    output short enough for [int] to read all of it under every setting of
    the interpreter's digit cap: either the pattern has no match and the
    accessor ends with [AttributeError], or it returns a number that is not
    negative.  It ends with no other exception. *)
Theorem digit_scrape_outcomes {S WS T} (adb : AdbDevice S WS T) lim
    cmd key stop acc (w : Eff.World S) out s' :
  In (cmd, key, stop, acc) (digit_scraping adb lim) ->
  adb_shell adb cmd None (Eff.device w) = (Return out, s') ->
  String.length out <= digit_cap_floor ->
  acc w = (Raise AttributeError, Eff.mkWorld s' (Eff.calls w ++ [Shell cmd]))
  \/ exists n, (0 <= n)%Z
               /\ acc w = (Return n, Eff.mkWorld s' (Eff.calls w ++ [Shell cmd])).
Proof.
  unfold digit_scraping. simpl In.
  unfold digit_cap_floor.
  intros [Hin | [Hin | [Hin | [Hin | []]]]] H Hlen; inversion Hin; subst; clear Hin.
  - unfold get_screen_timeout.
    rewrite (Extraction.scrape_int_run adb lim _ _ _ w _ s' compile_screen_timeout H).
    destruct (Py.search re_screen_timeout out) as [m|] eqn:E; [right | left; reflexivity].
    apply search_suffix in E as (p & s1 & -> & E).
    apply key_digits_group in E as (g & -> & Hg & Hne & Hg1).
    destruct (int_digits_nonneg g Hg Hne) as (n & Hn & Hpos).
    rewrite DigitCap.length_app in Hlen.
    rewrite (DigitCap.int_short lim g), Hn; [eauto | lia].
  - unfold get_max_volume_level.
    rewrite (Extraction.scrape_int_run adb lim _ _ _ w _ s' compile_max H).
    destruct (Py.search re_max out) as [m|] eqn:E; [right | left; reflexivity].
    apply search_suffix in E as (p & s1 & -> & E).
    apply key_digits_line_group in E as (g & -> & Hg & Hne & Hg1).
    destruct (int_digits_nonneg g Hg Hne) as (n & Hn & Hpos).
    rewrite DigitCap.length_app in Hlen.
    rewrite (DigitCap.int_short lim g), Hn; [eauto | lia].
  - unfold get_max_notification_level.
    rewrite (Extraction.scrape_int_run adb lim _ _ _ w _ s' compile_max H).
    destruct (Py.search re_max out) as [m|] eqn:E; [right | left; reflexivity].
    apply search_suffix in E as (p & s1 & -> & E).
    apply key_digits_line_group in E as (g & -> & Hg & Hne & Hg1).
    destruct (int_digits_nonneg g Hg Hne) as (n & Hn & Hpos).
    rewrite DigitCap.length_app in Hlen.
    rewrite (DigitCap.int_short lim g), Hn; [eauto | lia].
  - unfold get_volume_music_speaker.
    rewrite (Extraction.scrape_int_run adb lim _ _ _ w _ s' compile_speaker H).
    destruct (Py.search re_speaker out) as [m|] eqn:E; [right | left; reflexivity].
    apply search_suffix in E as (p & s1 & -> & E).
    apply key_digits_group in E as (g & -> & Hg & Hne & Hg1).
    destruct (int_digits_nonneg g Hg Hne) as (n & Hn & Hpos).
    rewrite DigitCap.length_app in Hlen.
    rewrite (DigitCap.int_short lim g), Hn; [eauto | lia].
Qed.

(** The ring stream of an audio dump. *)
Lemma digit_scrape_outcomes_witness :
  let adb := Fixtures.scripted [(cmd_audio_ring, Return Fixtures.max_15)] 0 in
  Driver.get_max_notification_level adb 4300 Fixtures.start
  = (Raise AttributeError, Eff.mkWorld tt [Shell cmd_audio_ring])
  \/ exists n, (0 <= n)%Z
               /\ Driver.get_max_notification_level adb 4300 Fixtures.start
                  = (Return n, Eff.mkWorld tt [Shell cmd_audio_ring]).
Proof.
  apply (digit_scrape_outcomes
           (Fixtures.scripted [(cmd_audio_ring, Return Fixtures.max_15)] 0) 4300
           cmd_audio_ring "Max: " nl _ Fixtures.start Fixtures.max_15 tt).
  - simpl. right. right. left. reflexivity.
  - reflexivity.
  - vm_compute. lia.
Defined.

(** *** The notification volume: fallback before extraction *)

(** [get_volume_notification_speaker] once the commands have printed: the
    text searched is [out], the log gained [log]. *)
Lemma notification_speaker_scrapes {S WS T} (adb : AdbDevice S WS T) lim
    (w : Eff.World S) out s' log :
  py_or (shell adb cmd_ring_speaker None) (shell adb cmd_notification_speaker None) w
  = (Return out, Eff.mkWorld s' (Eff.calls w ++ log)) ->
  get_volume_notification_speaker adb lim w
  = (match Py.search re_speaker out with
     | None => Raise AttributeError
     | Some m =>
         match Py.group m 1 with
         | Some g =>
             match Py.int lim g with
             | Some n => Return n
             | None => Raise ValueError
             end
         | None => Raise IndexError
         end
     end, Eff.mkWorld s' (Eff.calls w ++ log)).
Proof.
  intros H. unfold get_volume_notification_speaker.
  unfold Eff.bind at 1. rewrite H.
  unfold re_search, re_compile. rewrite compile_speaker.
  cbv beta iota delta [Eff.bind Eff.ret Eff.raise re_search_compiled py_group py_int].
  destruct (Py.search re_speaker out) as [m|]; [|reflexivity].
  destruct (Py.group m 1) as [g|]; [|reflexivity].
  destruct (Py.int lim g); reflexivity.
Qed.

(** X6.  [get_volume_notification_speaker] falls back on empty output only: when
    the first command prints text, however useless, the second command is
    not run; if that text has no [speaker=<digits>], the accessor ends with
    [AttributeError]. *)
Theorem notification_speaker_no_second_chance {S WS T} (adb : AdbDevice S WS T) lim
    (w : Eff.World S) out s' :
  adb_shell adb cmd_ring_speaker None (Eff.device w) = (Return out, s') ->
  out <> "" ->
  found pat_speaker out = None ->
  get_volume_notification_speaker adb lim w
  = (Raise AttributeError, Eff.mkWorld s' (Eff.calls w ++ [Shell cmd_ring_speaker])).
Proof.
  intros H Hne Hnone.
  rewrite (notification_speaker_scrapes adb lim w out s' [Shell cmd_ring_speaker]).
  - rewrite (Extraction.found_compiled _ _ out compile_speaker) in Hnone.
    rewrite Hnone. reflexivity.
  - apply Fallback.py_or_short_circuit; [|exact Hne].
    apply Fallback.shell_run. exact H.
Qed.

(** A device whose ring setting is listed under another name while the
    notification setting would have matched. *)
Lemma notification_speaker_no_second_chance_witness :
  Driver.get_volume_notification_speaker
    (Fixtures.scripted
       [(cmd_ring_speaker, Return "volume_ring_speaker_headset");
        (cmd_notification_speaker, Return "volume_notification_speaker=5")] 0) 4300
    Fixtures.start
  = (Raise AttributeError, Eff.mkWorld tt [Shell cmd_ring_speaker]).
Proof.
  apply (notification_speaker_no_second_chance
           (Fixtures.scripted
              [(cmd_ring_speaker, Return "volume_ring_speaker_headset");
               (cmd_notification_speaker, Return "volume_notification_speaker=5")] 0) 4300
           Fixtures.start "volume_ring_speaker_headset" tt).
  - reflexivity.
  - discriminate.
  - reflexivity.
Defined.

(** X7.  [get_volume_notification_speaker] when the first command prints
    nothing: the number is read from the second command's output, after the
    first [speaker=] in it, and the log gains both commands.  The number is
    [int(d)] for the run of digits [d] found there, when [int] accepts [d]
    under the digit cap in force. *)
Theorem notification_speaker_falls_back {S WS T} (adb : AdbDevice S WS T) lim
    (w : Eff.World S) s1 pre d post n s2 :
  adb_shell adb cmd_ring_speaker None (Eff.device w) = (Return "", s1) ->
  adb_shell adb cmd_notification_speaker None s1
  = (Return (pre ++ "speaker=" ++ d ++ post), s2) ->
  Py.contains "speaker=" pre = false ->
  all_in digit d = true ->
  d <> "" ->
  no_digit_ahead post ->
  Py.int lim d = Some n ->
  get_volume_notification_speaker adb lim w
  = (Return n,
     Eff.mkWorld s2
       (Eff.calls w ++ [Shell cmd_ring_speaker; Shell cmd_notification_speaker])).
Proof.
  intros H1 H2 Hpre Hd Hne Hpost Hint.
  rewrite (notification_speaker_scrapes adb lim w (pre ++ "speaker=" ++ d ++ post) s2
             [Shell cmd_ring_speaker; Shell cmd_notification_speaker]).
  - unfold re_speaker.
    rewrite (search_from_key _ _ _ _ pre
               (fun a p => speaker_no_straddle a p _) Hpre
               (key_digits_at _ d post Hd Hne Hpost)).
    cbn [Py.group Py.groups Py.lookup Nat.eqb]. rewrite Hint. reflexivity.
  - rewrite (Fallback.py_or_falls_through _ _ w _
               (Fallback.shell_run adb cmd_ring_speaker w _ _ H1)).
    rewrite (Fallback.shell_run adb cmd_notification_speaker
               (Eff.mkWorld s1 (Eff.calls w ++ [Shell cmd_ring_speaker])) _ s2 H2).
    simpl. rewrite <- app_assoc. reflexivity.
Qed.

Lemma notification_speaker_falls_back_witness :
  Driver.get_volume_notification_speaker
    (Fixtures.scripted
       [(cmd_notification_speaker, Return "volume_notification_speaker=5")] 0) 4300
    Fixtures.start
  = (Return 5%Z,
     Eff.mkWorld tt [Shell cmd_ring_speaker; Shell cmd_notification_speaker]).
Proof.
  apply (notification_speaker_falls_back
           (Fixtures.scripted
              [(cmd_notification_speaker, Return "volume_notification_speaker=5")] 0) 4300
           Fixtures.start tt "volume_notification_" "5" "" 5%Z tt).
  - reflexivity.
  - reflexivity.
  - reflexivity.
  - reflexivity.
  - discriminate.
  - exact I.
  - reflexivity.
Defined.

End Digits.

(** ** The input-method flag *)

Module InputMethod.

Import Driver Tables MoreTables Patterns Substrings Consumption.

Lemma shown_no_straddle a p rest :
  Py.contains "mInputShown=" (String a p) = false ->
  Py.startswith (String a p ++ "mInputShown=" ++ rest) "mInputShown=" = false.
Proof.
  intros H. destruct (Py.startswith _ _) eqn:E; [exfalso|reflexivity].
  apply contains_head in H. unfold Py.startswith in E.
  walk E p.
  pose proof (startswith_app "mInputShown=" p) as H'. cbv [append] in H'. congruence.
Qed.

Lemma shown_at v post :
  v = "true" \/ v = "false" ->
  Py.match_at re_ime_shown ("mInputShown=" ++ v ++ post)
  = Some (Py.mkMatch ("mInputShown=" ++ v) [(1, v)]).
Proof. intros [-> | ->]; reflexivity. Qed.

(** A match of the pattern is one of the two literals, and group 1 says
    which. *)
Lemma shown_match s m :
  Py.match_at re_ime_shown s = Some m ->
  (Py.startswith s shown_true = true /\ Py.group m 1 = Some "true")
  \/ (Py.startswith s shown_false = true /\ Py.group m 1 = Some "false").
Proof.
  unfold Py.match_at, re_ime_shown, Py.startswith. cbn [Py.match_here].
  change shown_true with ("mInputShown=" ++ "true").
  change shown_false with ("mInputShown=" ++ "false").
  rewrite !strip_prefix_split.
  destruct (Py.strip_prefix "mInputShown=" s) as [s1|]; [|discriminate].
  unfold Py.orelse.
  destruct (Py.strip_prefix "true" s1) as [s2|].
  - intros H. inversion H. left. split; reflexivity.
  - destruct (Py.strip_prefix "false" s1) as [s2|]; [|discriminate].
    intros H. inversion H. right. split; reflexivity.
Qed.

(** X8.  [is_ime_active] reads the first [mInputShown=] field of the output:
    when that field is followed by [true] or by [false], the accessor
    returns the corresponding boolean, whatever comes later. *)
Theorem ime_active_first_field {S WS T} (adb : AdbDevice S WS T)
    (w : Eff.World S) pre v post s' :
  adb_shell adb cmd_ime_shown None (Eff.device w)
  = (Return (pre ++ "mInputShown=" ++ v ++ post), s') ->
  Py.contains "mInputShown=" pre = false ->
  v = "true" \/ v = "false" ->
  is_ime_active adb w
  = (Return (String.eqb v "true"),
     Eff.mkWorld s' (Eff.calls w ++ [Shell cmd_ime_shown])).
Proof.
  intros H Hpre Hv.
  rewrite (Extraction.is_ime_active_run adb w _ s' H). unfold re_ime_shown.
  rewrite (Digits.search_from_key _ _ _ _ pre
             (fun a p => shown_no_straddle a p _) Hpre (shown_at v post Hv)).
  reflexivity.
Qed.

(** A dump in which a later field of the same name disagrees. *)
Lemma ime_active_first_field_witness :
  Driver.is_ime_active
    (Fixtures.scripted
       [(cmd_ime_shown, Return "  mInputShown=false  mInputShown=true")] 0)
    Fixtures.start
  = (Return false, Eff.mkWorld tt [Shell cmd_ime_shown]).
Proof.
  apply (ime_active_first_field
           (Fixtures.scripted
              [(cmd_ime_shown, Return "  mInputShown=false  mInputShown=true")] 0)
           Fixtures.start "  " "false" "  mInputShown=true" tt).
  - reflexivity.
  - reflexivity.
  - right. reflexivity.
Defined.

(** X9.  [is_ime_active] on any output is one of three things: [AttributeError],
    exactly when the output contains neither [mInputShown=true] nor
    [mInputShown=false]; [True], and then the output contains
    [mInputShown=true]; or [False], and then it contains
    [mInputShown=false]. *)
Theorem ime_active_outcomes {S WS T} (adb : AdbDevice S WS T)
    (w : Eff.World S) out s' :
  adb_shell adb cmd_ime_shown None (Eff.device w) = (Return out, s') ->
  let w' := Eff.mkWorld s' (Eff.calls w ++ [Shell cmd_ime_shown]) in
  (is_ime_active adb w = (Raise AttributeError, w')
   /\ Py.contains shown_true out = false /\ Py.contains shown_false out = false)
  \/ (is_ime_active adb w = (Return true, w') /\ Py.contains shown_true out = true)
  \/ (is_ime_active adb w = (Return false, w') /\ Py.contains shown_false out = true).
Proof.
  intros H w'. subst w'.
  rewrite (Extraction.is_ime_active_run adb w out s' H).
  destruct (Py.search re_ime_shown out) as [m|] eqn:E.
  - right. apply search_suffix in E as (p & s1 & -> & E).
    apply shown_match in E as [[Hs ->] | [Hs ->]]; [left | right];
      (split; [reflexivity|]);
      unfold Py.startswith in Hs;
      destruct (Py.strip_prefix _ s1) as [s2|] eqn:E2; try discriminate;
      apply strip_prefix_Some in E2; subst s1; apply contains_app.
  - left. split; [reflexivity|].
    split.
    + destruct (Py.contains shown_true out) eqn:C; [exfalso|reflexivity].
      apply contains_inv in C as (p & q & ->).
      destruct (search_finds re_ime_shown _ _ p (shown_at "true" q (or_introl eq_refl)))
        as [m' Hm'].
      unfold shown_true in E. cbn [append] in E, Hm'. congruence.
    + destruct (Py.contains shown_false out) eqn:C; [exfalso|reflexivity].
      apply contains_inv in C as (p & q & ->).
      destruct (search_finds re_ime_shown _ _ p (shown_at "false" q (or_intror eq_refl)))
        as [m' Hm'].
      unfold shown_false in E. cbn [append] in E, Hm'. congruence.
Qed.

Lemma ime_active_outcomes_witness :
  let adb := Fixtures.scripted [(cmd_ime_shown, Return "mInputShown=true")] 0 in
  let w' := Eff.mkWorld tt [Shell cmd_ime_shown] in
  (Driver.is_ime_active adb Fixtures.start = (Raise AttributeError, w')
   /\ Py.contains shown_true "mInputShown=true" = false
   /\ Py.contains shown_false "mInputShown=true" = false)
  \/ (Driver.is_ime_active adb Fixtures.start = (Return true, w')
      /\ Py.contains shown_true "mInputShown=true" = true)
  \/ (Driver.is_ime_active adb Fixtures.start = (Return false, w')
      /\ Py.contains shown_false "mInputShown=true" = true).
Proof.
  apply (ime_active_outcomes
           (Fixtures.scripted [(cmd_ime_shown, Return "mInputShown=true")] 0)
           Fixtures.start "mInputShown=true" tt).
  reflexivity.
Defined.

End InputMethod.

(** ** Names: the Bluetooth name and the SSID *)

Module Names.

Import Driver Tables MoreTables Patterns Substrings Consumption.

(** *** Text without a given character *)

Lemma startswith_char c a s : Py.startswith (String a s) (String c "") = Ascii.eqb c a.
Proof. unfold Py.startswith. cbn [Py.strip_prefix]. destruct (Ascii.eqb c a); reflexivity. Qed.

Lemma char_absent c b v2 : forall v1,
  Py.contains (String c "") (v1 ++ String b v2) = false -> Ascii.eqb c b = false.
Proof.
  induction v1 as [|a v1 IH]; intros H.
  - apply contains_head in H. cbn [append] in H. rewrite startswith_char in H. exact H.
  - apply IH. apply (contains_tail _ a). exact H.
Qed.

Lemma no_newline_all_in : forall v,
  Py.contains nl v = false -> all_in Py.AnyButNewline v = true.
Proof.
  induction v as [|a v IH]; intros H; cbn [all_in]; [reflexivity|].
  rewrite (IH (contains_tail _ _ _ H)).
  apply contains_head in H. unfold nl in H. rewrite startswith_char in H.
  cbn [Py.cset_mem]. rewrite Ascii.eqb_sym, H. reflexivity.
Qed.

Lemma all_in_no_newline : forall v,
  all_in Py.AnyButNewline v = true -> Py.contains nl v = false.
Proof.
  induction v as [|a v IH]; intros H; [reflexivity|].
  cbn [all_in] in H. apply andb_true_iff in H as [Ha Hv].
  cbn [Py.contains]. unfold nl at 1. rewrite startswith_char.
  cbn [Py.cset_mem] in Ha. rewrite Ascii.eqb_sym. 
  destruct (Ascii.eqb a "010"); [discriminate|]. apply IH. exact Hv.
Qed.

(** *** The Bluetooth name *)

Lemma name_no_straddle a p rest :
  Py.contains "name: " (String a p) = false ->
  Py.startswith (String a p ++ "name: " ++ rest) "name: " = false.
Proof.
  intros H. destruct (Py.startswith _ _) eqn:E; [exfalso|reflexivity].
  apply contains_head in H. unfold Py.startswith in E.
  walk E p.
  pose proof (startswith_app "name: " p) as H'. cbv [append] in H'. congruence.
Qed.

Lemma name_at v post :
  v <> "" -> Py.contains nl v = false ->
  Py.match_at re_bluetooth_name ("name: " ++ v ++ nl ++ post)
  = Some (Py.mkMatch ("name: " ++ v ++ nl) [(1, v)]).
Proof.
  intros Hne Hv. apply no_newline_all_in in Hv.
  destruct v as [|a v]; [congruence|].
  cbn [all_in] in Hv. apply andb_true_iff in Hv as [Ha Hv].
  unfold Py.match_at, re_bluetooth_name. cbn [Py.match_here].
  rewrite strip_prefix_app. cbn [append]. rewrite Ha.
  apply star_greedy_takes; [exact Hv | | reflexivity].
  intros b t Hb. inversion Hb. reflexivity.
Qed.

Lemma name_match s m :
  Py.match_at re_bluetooth_name s = Some m ->
  exists g rest,
    s = "name: " ++ g ++ nl ++ rest /\ Py.group m 1 = Some g
    /\ all_in Py.AnyButNewline g = true /\ g <> "".
Proof.
  unfold Py.match_at, re_bluetooth_name. cbn [Py.match_here].
  destruct (Py.strip_prefix "name: " s) as [s1|] eqn:E0; [|discriminate].
  apply strip_prefix_Some in E0. subst s.
  destruct s1 as [|a s1]; [discriminate|].
  destruct (Py.cset_mem Py.AnyButNewline a) eqn:Ha; [|discriminate].
  intros H. apply star_greedy_split in H as (t & s' & -> & Ht & Hk).
  destruct (Py.strip_prefix nl s') as [s2|] eqn:E1; [|discriminate].
  apply strip_prefix_Some in E1. subst s'.
  inversion Hk; subst m. exists (String a t), s2.
  cbn [all_in]. rewrite Ha, Ht.
  repeat split; try reflexivity; discriminate.
Qed.

(** X10.  [get_bluetooth_name] returns the rest of the line after the first
    [name: ] of the dump, when that rest is not empty. *)
Theorem bluetooth_name_first_line {S WS T} (adb : AdbDevice S WS T)
    (w : Eff.World S) pre v post s' :
  adb_shell adb cmd_bluetooth_manager None (Eff.device w)
  = (Return (pre ++ "name: " ++ v ++ nl ++ post), s') ->
  Py.contains "name: " pre = false ->
  v <> "" ->
  Py.contains nl v = false ->
  get_bluetooth_name adb w
  = (Return v, Eff.mkWorld s' (Eff.calls w ++ [Shell cmd_bluetooth_manager])).
Proof.
  intros H Hpre Hne Hv.
  rewrite (Extraction.get_bluetooth_name_run adb w _ s' H). unfold re_bluetooth_name.
  rewrite (Digits.search_from_key _ _ _ _ pre
             (fun a p => name_no_straddle a p _) Hpre (name_at v post Hne Hv)).
  reflexivity.
Qed.

Lemma bluetooth_name_first_line_witness :
  Driver.get_bluetooth_name
    (Fixtures.scripted
       [(cmd_bluetooth_manager,
         Return ("  enabled: true" ++ nl ++ "  name: Pixel 7" ++ nl
                 ++ "  address: 00" ++ nl))] 0)
    Fixtures.start
  = (Return "Pixel 7", Eff.mkWorld tt [Shell cmd_bluetooth_manager]).
Proof.
  apply (bluetooth_name_first_line
           (Fixtures.scripted
              [(cmd_bluetooth_manager,
                Return ("  enabled: true" ++ nl ++ "  name: Pixel 7" ++ nl
                        ++ "  address: 00" ++ nl))] 0)
           Fixtures.start ("  enabled: true" ++ nl ++ "  ") "Pixel 7"
           ("  address: 00" ++ nl) tt).
  - reflexivity.
  - reflexivity.
  - discriminate.
  - reflexivity.
Defined.

(** X11.  [get_bluetooth_name] on any output either ends with [AttributeError] or
    returns a name that is not empty, has no newline in it, and stands in
    the output between [name: ] and a newline. *)
Theorem bluetooth_name_outcomes {S WS T} (adb : AdbDevice S WS T)
    (w : Eff.World S) out s' :
  adb_shell adb cmd_bluetooth_manager None (Eff.device w) = (Return out, s') ->
  let w' := Eff.mkWorld s' (Eff.calls w ++ [Shell cmd_bluetooth_manager]) in
  get_bluetooth_name adb w = (Raise AttributeError, w')
  \/ exists v,
       get_bluetooth_name adb w = (Return v, w')
       /\ v <> "" /\ Py.contains nl v = false
       /\ Py.contains ("name: " ++ v ++ nl) out = true.
Proof.
  intros H w'. subst w'.
  rewrite (Extraction.get_bluetooth_name_run adb w out s' H).
  destruct (Py.search re_bluetooth_name out) as [m|] eqn:E; [right | left; reflexivity].
  apply search_suffix in E as (p & s1 & -> & E).
  apply name_match in E as (g & rest & -> & -> & Hg & Hne).
  exists g. repeat split; [exact Hne | apply all_in_no_newline; exact Hg |].
  replace ("name: " ++ g ++ nl ++ rest) with (("name: " ++ g ++ nl) ++ rest).
  - apply contains_app.
  - rewrite !append_assoc. reflexivity.
Qed.

Lemma bluetooth_name_outcomes_witness :
  let adb := Fixtures.scripted [(cmd_bluetooth_manager, Return ("name: x" ++ nl))] 0 in
  let w' := Eff.mkWorld tt [Shell cmd_bluetooth_manager] in
  Driver.get_bluetooth_name adb Fixtures.start = (Raise AttributeError, w')
  \/ exists v,
       Driver.get_bluetooth_name adb Fixtures.start = (Return v, w')
       /\ v <> "" /\ Py.contains nl v = false
       /\ Py.contains ("name: " ++ v ++ nl) ("name: x" ++ nl) = true.
Proof.
  apply (bluetooth_name_outcomes
           (Fixtures.scripted [(cmd_bluetooth_manager, Return ("name: x" ++ nl))] 0)
           Fixtures.start ("name: x" ++ nl) tt).
  reflexivity.
Defined.

(** *** The SSID *)

Lemma network_id_before_wifi a p rest :
  Py.contains key_network_id (String a p) = false ->
  Py.startswith (String a p ++ key_wifi_network ++ rest) key_network_id = false.
Proof.
  intros H. destruct (Py.startswith _ _) eqn:E; [exfalso|reflexivity].
  apply contains_head in H. unfold Py.startswith, key_network_id, key_wifi_network in E.
  walk E p.
  pose proof (startswith_app key_network_id p) as H'.
  unfold key_network_id in H, H'. cbv [append] in H'. congruence.
Qed.

Lemma wifi_before_wifi a p rest :
  Py.contains key_wifi_network (String a p) = false ->
  Py.startswith (String a p ++ key_wifi_network ++ rest) key_wifi_network = false.
Proof.
  intros H. destruct (Py.startswith _ _) eqn:E; [exfalso|reflexivity].
  apply contains_head in H. unfold Py.startswith, key_wifi_network in E.
  walk E p.
  pose proof (startswith_app key_wifi_network p) as H'.
  unfold key_wifi_network in H, H'. cbv [append] in H'. congruence.
Qed.

(** The lazy group stops at the first quote after at least one character. *)
Lemma lazy_to_quote {R} (K : string -> string -> option R) r post : forall v acc,
  Py.contains nl v = false ->
  Py.contains dq v = false ->
  K (acc ++ v) post = Some r ->
  Py.star_lazy Py.AnyButNewline acc (v ++ dq ++ post)
    (fun t s => match Py.strip_prefix dq s with
                | Some s' => K t s'
                | None => None
                end)
  = Some r.
Proof.
  intros v acc Hnl Hdq HK.
  apply star_lazy_takes.
  - apply no_newline_all_in. exact Hnl.
  - intros v1 a v2 ->. unfold dq at 1. cbn [append Py.strip_prefix].
    unfold dq in Hdq. rewrite (char_absent _ _ _ _ Hdq). reflexivity.
  - rewrite strip_prefix_app. exact HK.
Qed.

Lemma ssid_at name v post :
  name = "networkId" \/ name = "wifiNetworkKey" ->
  v <> "" -> Py.contains nl v = false -> Py.contains dq v = false ->
  Py.match_at re_ssid (name ++ ("=" ++ dq) ++ v ++ dq ++ post)
  = Some (Py.mkMatch (name ++ ("=" ++ dq) ++ v ++ dq) [(2, v); (1, name)]).
Proof.
  intros Hname Hne Hnl Hdq.
  destruct v as [|a v]; [congruence|].
  assert (Ha : Py.cset_mem Py.AnyButNewline a = true).
  { apply no_newline_all_in in Hnl. cbn [all_in] in Hnl.
    apply andb_true_iff in Hnl as [Ha _]. exact Ha. }
  assert (Hq : Ascii.eqb "034" a = false).
  { apply contains_head in Hdq. unfold dq in Hdq. rewrite startswith_char in Hdq.
    exact Hdq. }
  apply contains_tail in Hnl, Hdq.
  destruct Hname as [-> | ->].
  - unfold Py.match_at, re_ssid. cbn [Py.match_here].
    rewrite (strip_prefix_app "networkId"), (strip_prefix_app ("=" ++ dq)).
    cbn [append]. rewrite Ha.
    match goal with
    | |- context [Py.star_lazy Py.AnyButNewline ?acc ?s ?k] =>
        assert (E : Py.star_lazy Py.AnyButNewline acc s k
                    = Some (Py.mkMatch ("networkId" ++ ("=" ++ dq) ++ String a v ++ dq)
                              [(2, String a v); (1, "networkId")]))
    end.
    { apply (lazy_to_quote
               (fun t _ => Some (Py.mkMatch ("networkId" ++ ("=" ++ dq) ++ t ++ dq)
                                   [(2, t); (1, "networkId")]))
               _ post v (String a "") Hnl Hdq).
      reflexivity. }
    rewrite E. reflexivity.
  - unfold Py.match_at, re_ssid. cbn [Py.match_here].
    assert (E0 : forall rest, Py.strip_prefix "networkId" ("wifiNetworkKey" ++ rest) = None)
      by reflexivity.
    rewrite E0, (strip_prefix_app "wifiNetworkKey"), (strip_prefix_app ("=" ++ dq)).
    cbn [append Py.orelse]. rewrite Ha.
    match goal with
    | |- context [Py.star_lazy Py.AnyButNewline ?acc ?s ?k] =>
        assert (E : Py.star_lazy Py.AnyButNewline acc s k
                    = Some (Py.mkMatch ("wifiNetworkKey" ++ ("=" ++ dq) ++ String a v ++ dq)
                              [(2, String a v); (1, "wifiNetworkKey")]))
    end.
    { apply (lazy_to_quote
               (fun t _ => Some (Py.mkMatch ("wifiNetworkKey" ++ ("=" ++ dq) ++ t ++ dq)
                                   [(2, t); (1, "wifiNetworkKey")]))
               _ post v (String a "") Hnl Hdq).
      reflexivity. }
    rewrite E. reflexivity.
Qed.

(** One alternative of the SSID pattern: the key's name, then the rest of
    the pattern. *)
Lemma ssid_alternative name s m :
  Py.match_here (Py.Lit name) s []
    (fun t s' g' =>
       Py.match_here
         (Py.Cat (Py.Lit ("=" ++ dq))
            (Py.Cat (Py.Grp 2 (Py.PlusLazy Py.AnyButNewline)) (Py.Lit dq)))
         s' ((1, t) :: g')
         (fun t2 s2 g2 => Some (Py.mkMatch (t ++ t2) g2)))
  = Some m ->
  exists g rest,
    s = name ++ ("=" ++ dq) ++ g ++ dq ++ rest /\ Py.group m 2 = Some g
    /\ all_in Py.AnyButNewline g = true /\ g <> "".
Proof.
  cbn [Py.match_here].
  destruct (Py.strip_prefix name s) as [s0|] eqn:E1; [|discriminate].
  destruct (Py.strip_prefix ("=" ++ dq) s0) as [s1|] eqn:E2; [|discriminate].
  destruct s1 as [|a s1]; [discriminate|].
  destruct (Py.cset_mem Py.AnyButNewline a) eqn:Ha; [|discriminate].
  intros H. apply star_lazy_split in H as (t & s' & -> & Ht & Hk).
  destruct (Py.strip_prefix dq s') as [s2|] eqn:E3; [|discriminate].
  inversion Hk; subst m.
  apply strip_prefix_Some in E1, E2, E3. subst s s0 s'.
  exists (String a t), s2. cbn [all_in]. rewrite Ha, Ht.
  repeat split; try reflexivity; discriminate.
Qed.

Lemma ssid_match s m :
  Py.match_at re_ssid s = Some m ->
  exists key g rest,
    (key = key_network_id \/ key = key_wifi_network)
    /\ s = key ++ g ++ dq ++ rest /\ Py.group m 2 = Some g
    /\ all_in Py.AnyButNewline g = true /\ g <> "".
Proof.
  unfold Py.match_at, re_ssid.
  cbn [Py.match_here]. unfold Py.orelse.
  pose proof (ssid_alternative "networkId" s) as H1.
  pose proof (ssid_alternative "wifiNetworkKey" s) as H2.
  cbn [Py.match_here] in H1, H2.
  match goal with
  | |- match ?x with _ => _ end = _ -> _ => destruct x as [m1|] eqn:E
  end.
  - intros Hm. inversion Hm; subst m1.
    destruct (H1 m eq_refl) as (g & rest & -> & Hg & Ha & Hne).
    exists key_network_id, g, rest. repeat split; auto.
  - intros Hm. destruct (H2 m Hm) as (g & rest & -> & Hg & Ha & Hne).
    exists key_wifi_network, g, rest. repeat split; auto.
Qed.

(** The search reaches a key that no earlier key precedes. *)
Lemma search_ssid_from_key pre key rest m :
  key = key_network_id \/ key = key_wifi_network ->
  Py.contains key_network_id pre = false ->
  Py.contains key_wifi_network pre = false ->
  Py.match_at re_ssid (key ++ rest) = Some m ->
  Py.search re_ssid (pre ++ key ++ rest) = Some m.
Proof.
  intros Hkey H1 H2 Hm.
  rewrite (search_skips re_ssid _
             (fun p => Py.contains key_network_id p = false
                       /\ Py.contains key_wifi_network p = false)).
  - apply search_here. exact Hm.
  - intros a p [Ha Hb]. split; eapply contains_tail; eassumption.
  - intros a p [Ha Hb]. apply ssid_needs_key; destruct Hkey as [-> | ->].
    + apply (network_id_no_straddle a p _ Ha).
    + apply (network_id_before_wifi a p _ Ha).
    + apply (wifi_network_no_straddle a p _ Hb).
    + apply (wifi_before_wifi a p _ Hb).
  - split; assumption.
Qed.

(** X12.  [get_current_ssid] returns the text between the quotes after the first
    [networkId="] or [wifiNetworkKey="] of the output, when that text is not
    empty and the quote closes on the same line. *)
Theorem current_ssid_first_value {S WS T} (adb : AdbDevice S WS T)
    (w : Eff.World S) pre key v post s' :
  adb_shell adb cmd_netstats None (Eff.device w)
  = (Return (pre ++ key ++ v ++ dq ++ post), s') ->
  key = key_network_id \/ key = key_wifi_network ->
  Py.contains key_network_id pre = false ->
  Py.contains key_wifi_network pre = false ->
  v <> "" ->
  Py.contains nl v = false ->
  Py.contains dq v = false ->
  get_current_ssid adb w
  = (Return (Some v), Eff.mkWorld s' (Eff.calls w ++ [Shell cmd_netstats])).
Proof.
  intros H Hkey H1 H2 Hne Hnl Hdq.
  rewrite (Extraction.get_current_ssid_run adb w _ s' H).
  destruct Hkey as [-> | ->].
  - rewrite (search_ssid_from_key pre key_network_id _ _ (or_introl eq_refl) H1 H2
               (ssid_at "networkId" v post (or_introl eq_refl) Hne Hnl Hdq)).
    reflexivity.
  - rewrite (search_ssid_from_key pre key_wifi_network _ _ (or_intror eq_refl) H1 H2
               (ssid_at "wifiNetworkKey" v post (or_intror eq_refl) Hne Hnl Hdq)).
    reflexivity.
Qed.

(** A netstats line with the older key and a name with a blank in it. *)
Lemma current_ssid_first_value_witness :
  Driver.get_current_ssid
    (Fixtures.scripted
       [(cmd_netstats,
         Return ("ident=[{type=WIFI, " ++ key_wifi_network ++ "Cafe 24" ++ dq ++ "}]"))] 0)
    Fixtures.start
  = (Return (Some "Cafe 24"), Eff.mkWorld tt [Shell cmd_netstats]).
Proof.
  apply (current_ssid_first_value
           (Fixtures.scripted
              [(cmd_netstats,
                Return ("ident=[{type=WIFI, " ++ key_wifi_network ++ "Cafe 24" ++ dq
                        ++ "}]"))] 0)
           Fixtures.start "ident=[{type=WIFI, " key_wifi_network "Cafe 24" "}]" tt).
  - reflexivity.
  - right. reflexivity.
  - reflexivity.
  - reflexivity.
  - discriminate.
  - reflexivity.
  - reflexivity.
Defined.

(** X13.  [get_current_ssid] never raises once the command has printed.  It
    returns [None] only when the output holds no key followed by a quoted,
    non-empty, one-line value; and a name it returns is not empty, has no
    newline in it, and stands in the output between a key and a quote. *)
Theorem current_ssid_outcomes {S WS T} (adb : AdbDevice S WS T)
    (w : Eff.World S) out s' :
  adb_shell adb cmd_netstats None (Eff.device w) = (Return out, s') ->
  let w' := Eff.mkWorld s' (Eff.calls w ++ [Shell cmd_netstats]) in
  (get_current_ssid adb w = (Return None, w')
   /\ forall key v,
        key = key_network_id \/ key = key_wifi_network ->
        v <> "" -> Py.contains nl v = false -> Py.contains dq v = false ->
        Py.contains (key ++ v ++ dq) out = false)
  \/ exists key g,
       (key = key_network_id \/ key = key_wifi_network)
       /\ get_current_ssid adb w = (Return (Some g), w')
       /\ g <> "" /\ Py.contains nl g = false
       /\ Py.contains (key ++ g ++ dq) out = true.
Proof.
  intros H w'. subst w'.
  rewrite (Extraction.get_current_ssid_run adb w out s' H).
  destruct (Py.search re_ssid out) as [m|] eqn:E.
  - right. apply search_suffix in E as (p & s1 & -> & E).
    apply ssid_match in E as (key & g & rest & Hkey & -> & -> & Hg & Hne).
    exists key, g. repeat split; [exact Hkey | exact Hne | apply all_in_no_newline; exact Hg |].
    replace (key ++ g ++ dq ++ rest) with ((key ++ g ++ dq) ++ rest).
    + apply contains_app.
    + rewrite !append_assoc. reflexivity.
  - left. split; [reflexivity|].
    intros key v Hkey Hne Hnl Hdq.
    destruct (Py.contains (key ++ v ++ dq) out) eqn:C; [exfalso|reflexivity].
    apply contains_inv in C as (p & q & ->).
    assert (Hm : exists m, Py.match_at re_ssid ((key ++ v ++ dq) ++ q) = Some m).
    { rewrite !append_assoc.
      destruct Hkey as [-> | ->]; eexists.
      - apply (ssid_at "networkId" v q (or_introl eq_refl) Hne Hnl Hdq).
      - apply (ssid_at "wifiNetworkKey" v q (or_intror eq_refl) Hne Hnl Hdq). }
    destruct Hm as [m Hm].
    destruct (search_finds re_ssid _ _ p Hm) as [m' Hm']. congruence.
Qed.

Lemma current_ssid_outcomes_witness :
  let adb := Fixtures.scripted [(cmd_netstats, Return Fixtures.ssid_abc123)] 0 in
  let w' := Eff.mkWorld tt [Shell cmd_netstats] in
  (Driver.get_current_ssid adb Fixtures.start = (Return None, w')
   /\ forall key v,
        key = key_network_id \/ key = key_wifi_network ->
        v <> "" -> Py.contains nl v = false -> Py.contains dq v = false ->
        Py.contains (key ++ v ++ dq) Fixtures.ssid_abc123 = false)
  \/ exists key g,
       (key = key_network_id \/ key = key_wifi_network)
       /\ Driver.get_current_ssid adb Fixtures.start = (Return (Some g), w')
       /\ g <> "" /\ Py.contains nl g = false
       /\ Py.contains (key ++ g ++ dq) Fixtures.ssid_abc123 = true.
Proof.
  apply (current_ssid_outcomes
           (Fixtures.scripted [(cmd_netstats, Return Fixtures.ssid_abc123)] 0)
           Fixtures.start Fixtures.ssid_abc123 tt).
  reflexivity.
Defined.

End Names.

(** ** Whole-output integers *)

Module Numbers.

Import Driver Tables MoreTables Patterns Substrings.

Lemma space_is_no_digit a :
  Py.is_space a = true -> Py.digit_val a = None /\ Ascii.eqb a "_" = false.
Proof.
  unfold Py.is_space, Py.digit_val. intros H.
  assert (Hn : nat_of_ascii a < 48 \/ 57 < nat_of_ascii a).
  { destruct (Nat.leb_spec 9 (nat_of_ascii a));
      destruct (Nat.leb_spec (nat_of_ascii a) 13);
      destruct (Nat.eqb_spec (nat_of_ascii a) 32);
      destruct (Nat.eqb_spec (nat_of_ascii a) 133);
      destruct (Nat.eqb_spec (nat_of_ascii a) 160);
      cbn in H; try discriminate; lia. }
  assert (Hu : nat_of_ascii a <> 95).
  { destruct (Nat.leb_spec 9 (nat_of_ascii a));
      destruct (Nat.leb_spec (nat_of_ascii a) 13);
      destruct (Nat.eqb_spec (nat_of_ascii a) 32);
      destruct (Nat.eqb_spec (nat_of_ascii a) 133);
      destruct (Nat.eqb_spec (nat_of_ascii a) 160);
      cbn in H; try discriminate; lia. }
  split.
  - destruct (Nat.leb_spec 48 (nat_of_ascii a));
      destruct (Nat.leb_spec (nat_of_ascii a) 57); try reflexivity; lia.
  - destruct (Ascii.eqb a "_") eqn:E; [|reflexivity].
    apply Integers.eqb_code in E. change (nat_of_ascii "_") with 95 in E. lia.
Qed.

(** White space only, seen from its head. *)
Lemma blank_head tail :
  Py.skip_spaces tail = "" ->
  match tail with
  | EmptyString => True
  | String a _ => Py.is_space a = true
  end.
Proof.
  destruct tail as [|a t]; [trivial|]. cbn [Py.skip_spaces].
  destruct (Py.is_space a); [reflexivity | discriminate].
Qed.

Lemma more_digits_stops acc tail :
  Py.skip_spaces tail = "" -> Py.more_digits acc tail = Some (acc, tail).
Proof.
  intros H. apply blank_head in H. destruct tail as [|a t]; [reflexivity|].
  destruct (space_is_no_digit a H) as [Hd Hu].
  cbn [Py.more_digits]. rewrite Hd, Hu. reflexivity.
Qed.

Ltac next_digit IH acc :=
  cbn [NilEmpty.string_of_uint append Py.more_digits Nat.of_uint_acc];
  match goal with
  | |- context [Py.digit_val ?c] =>
      let v := eval vm_compute in (Py.digit_val c) in
      change (Py.digit_val c) with v
  end;
  cbv beta iota;
  match goal with
  | |- Py.more_digits ?z _ = Some (Z.of_nat (Nat.of_uint_acc _ ?m), _) =>
      replace z with (Z.of_nat m); [apply IH|]
  end;
  rewrite ?Nat.tail_mul_spec; lia.

(** Reading a numeral left to right computes the number it denotes. *)
Lemma more_digits_numeral tail :
  Py.skip_spaces tail = "" ->
  forall u acc,
    Py.more_digits (Z.of_nat acc) (NilEmpty.string_of_uint u ++ tail)
    = Some (Z.of_nat (Nat.of_uint_acc u acc), tail).
Proof.
  intros Htail. induction u as [|u IH|u IH|u IH|u IH|u IH|u IH|u IH|u IH|u IH|u IH];
    intros acc.
  - apply more_digits_stops. exact Htail.
  - next_digit IH acc.
  - next_digit IH acc.
  - next_digit IH acc.
  - next_digit IH acc.
  - next_digit IH acc.
  - next_digit IH acc.
  - next_digit IH acc.
  - next_digit IH acc.
  - next_digit IH acc.
  - next_digit IH acc.
Qed.

(** Evaluates the tests the goal makes on known characters. *)
Ltac known_chars :=
  repeat match goal with
    | |- context [Py.is_space (Ascii ?a ?b ?c ?d ?e ?f ?g ?h)] =>
        let x := constr:(Py.is_space (Ascii a b c d e f g h)) in
        let v := eval vm_compute in x in change x with v; cbv beta iota
    | |- context [Py.digit_val (Ascii ?a ?b ?c ?d ?e ?f ?g ?h)] =>
        let x := constr:(Py.digit_val (Ascii a b c d e f g h)) in
        let v := eval vm_compute in x in change x with v; cbv beta iota
    | |- context [Ascii.eqb (Ascii ?a ?b ?c ?d ?e ?f ?g ?h) ?y] =>
        let x := constr:(Ascii.eqb (Ascii a b c d e f g h) y) in
        let v := eval vm_compute in x in change x with v; cbv beta iota
    end.

Lemma digits_uint tail u :
  Py.skip_spaces tail = "" ->
  Py.digits (NilZero.string_of_uint u ++ tail) = Some (Z.of_nat (Nat.of_uint u), tail).
Proof.
  intros Htail. unfold Nat.of_uint.
  destruct u; unfold NilZero.string_of_uint;
    cbn [NilEmpty.string_of_uint append Py.digits Nat.of_uint_acc]; known_chars;
    try (apply (more_digits_stops 0 tail Htail));
    match goal with
    | |- Py.more_digits ?z _ = Some (Z.of_nat (Nat.of_uint_acc _ ?m), _) =>
        change z with (Z.of_nat m); apply (more_digits_numeral tail Htail)
    end.
Qed.

Lemma int_uint tail u :
  Py.skip_spaces tail = "" ->
  Py.parse_int (NilZero.string_of_uint u ++ tail) = Some (Z.of_nat (Nat.of_uint u)).
Proof.
  intros Htail. pose proof (digits_uint tail u Htail) as Hd. revert Hd.
  unfold Py.parse_int.
  destruct u; unfold NilZero.string_of_uint;
    cbn [NilEmpty.string_of_uint append Py.skip_spaces]; known_chars;
    unfold Py.signed; known_chars; intros ->; rewrite Htail; f_equal; lia.
Qed.

Lemma int_minus_uint tail u :
  Py.skip_spaces tail = "" ->
  Py.parse_int ("-" ++ NilZero.string_of_uint u ++ tail)
  = Some (- Z.of_nat (Nat.of_uint u))%Z.
Proof.
  intros Htail. unfold Py.parse_int. cbn [append Py.skip_spaces]. known_chars.
  unfold Py.signed. known_chars.
  rewrite (digits_uint tail u Htail), Htail. f_equal; lia.
Qed.

(** The numeral of [z] followed by blanks reads as [z]. *)
Lemma parse_int_str z tail :
  Py.skip_spaces tail = "" -> Py.parse_int (str_of_int z ++ tail) = Some z.
Proof.
  intros Htail. unfold str_of_int, str_of_nat.
  destruct (Z.ltb_spec z 0).
  - rewrite append_assoc, (int_minus_uint tail _ Htail), DecimalNat.Unsigned.of_to.
    f_equal; lia.
  - rewrite (int_uint tail _ Htail), DecimalNat.Unsigned.of_to. f_equal; lia.
Qed.

Lemma blank_no_digits : forall tail,
  Py.skip_spaces tail = "" -> Py.count_digits tail = 0.
Proof.
  induction tail as [|a t IH]; intros H; [reflexivity|].
  pose proof (blank_head _ H) as Ha. cbn beta iota in Ha.
  cbn [Py.skip_spaces] in H. rewrite Ha in H.
  cbn [Py.count_digits]. rewrite (proj1 (space_is_no_digit a Ha)). apply IH. exact H.
Qed.

(** [int(str(z) + blanks)] is [z] when the numeral is short enough to stay
    under every digit cap. *)
Lemma int_str lim z tail :
  Py.skip_spaces tail = "" ->
  String.length (str_of_int z) <= digit_cap_floor ->
  Py.int lim (str_of_int z ++ tail) = Some z.
Proof.
  intros Htail Hlen. rewrite DigitCap.int_few_digits; [apply parse_int_str; exact Htail|].
  rewrite DigitCap.count_digits_app, (blank_no_digits tail Htail).
  pose proof (DigitCap.count_digits_le_length (str_of_int z)).
  unfold digit_cap_floor in Hlen. lia.
Qed.

(** X14.  [get_system_version] and [get_screen_brightness]: when the command
    prints the decimal numeral of an integer [z], with nothing but white
    space after it, the accessor returns [z].  The numeral is taken short
    enough for [int] to read under every setting of the interpreter's digit
    cap. *)
Theorem int_accessor_reads_numeral {S WS T} (adb : AdbDevice S WS T) lim
    cmd acc (w : Eff.World S) z tail s' :
  In (cmd, acc) (int_of_output adb lim) ->
  adb_shell adb cmd None (Eff.device w) = (Return (str_of_int z ++ tail), s') ->
  Py.skip_spaces tail = "" ->
  String.length (str_of_int z) <= digit_cap_floor ->
  acc w = (Return z, Eff.mkWorld s' (Eff.calls w ++ [Shell cmd])).
Proof.
  unfold int_of_output. simpl In.
  intros [Hin | [Hin | []]] H Htail Hlen; inversion Hin; subst; clear Hin.
  - rewrite (Extraction.get_system_version_run adb lim w _ s' H),
      (int_str lim z tail Htail Hlen).
    reflexivity.
  - unfold get_screen_brightness, Eff.bind.
    rewrite (Fallback.shell_run adb _ w _ _ H).
    unfold py_int. rewrite (int_str lim z tail Htail Hlen). reflexivity.
Qed.

(** A brightness of 255 printed with its newline. *)
Lemma int_accessor_reads_numeral_witness :
  Driver.get_screen_brightness
    (Fixtures.scripted [(cmd_brightness, Return ("255" ++ nl))] 0) 4300 Fixtures.start
  = (Return 255%Z, Eff.mkWorld tt [Shell cmd_brightness]).
Proof.
  apply (int_accessor_reads_numeral
           (Fixtures.scripted [(cmd_brightness, Return ("255" ++ nl))] 0) 4300
           cmd_brightness _ Fixtures.start 255%Z nl tt).
  - simpl. right. left. reflexivity.
  - reflexivity.
  - reflexivity.
  - vm_compute. lia.
Defined.

(** X15.  [bluetooth_on]: when the command prints the decimal numeral of an
    integer [z], with nothing but white space after it, the accessor returns
    [True] if [z] is 1 and [False] for every other integer.  The numeral is
    taken short enough for [int] to read under every setting of the
    interpreter's digit cap. *)
Theorem bluetooth_on_numeral {S WS T} (adb : AdbDevice S WS T) lim
    (w : Eff.World S) z tail s' :
  adb_shell adb cmd_bluetooth_on None (Eff.device w)
  = (Return (str_of_int z ++ tail), s') ->
  Py.skip_spaces tail = "" ->
  String.length (str_of_int z) <= digit_cap_floor ->
  bluetooth_on adb lim w
  = (Return (z =? 1)%Z, Eff.mkWorld s' (Eff.calls w ++ [Shell cmd_bluetooth_on])).
Proof.
  intros H Htail Hlen.
  rewrite (Coercion.bluetooth_on_run adb lim w _ s' H), (int_str lim z tail Htail Hlen).
  reflexivity.
Qed.

(** The value 0 of a radio that is off. *)
Lemma bluetooth_on_numeral_witness :
  Driver.bluetooth_on (Fixtures.scripted [(cmd_bluetooth_on, Return "0")] 0) 4300
    Fixtures.start
  = (Return false, Eff.mkWorld tt [Shell cmd_bluetooth_on]).
Proof.
  apply (bluetooth_on_numeral
           (Fixtures.scripted [(cmd_bluetooth_on, Return "0")] 0) 4300
           Fixtures.start 0%Z "" tt).
  - reflexivity.
  - reflexivity.
  - vm_compute. lia.
Defined.

End Numbers.
